(** * Go-live UI components of streamlabs-obs: a shallow embedding

    The development follows the four source files:
    - [Platforms]: [src/app/services/platforms/index.ts]
      (the platform identifiers and [getPlatformService]);
    - [Streaming]: the records of [services/streaming] that the
      components read (settings, checklist, stream info);
    - [BaseEditStreamInfo] and [YoutubeEditStreamInfo]: the stream-info
      editor ([BaseEditSteamInfo.tsx] and the youtube editor);
    - [GoLiveChecklist]: [GoLiveChecklist.tsx], with its [CheckMark].

    JavaScript values that can be [undefined] are options, a thrown
    [TypeError] is an explicit completion, objects used as dictionaries
    are finite maps, and numbers are IEEE 754 binary64 floats. *)

From Stdlib Require Import Floats Uint63 ZArith.
From stdpp Require Import base strings gmap list pretty.

(** ** Completions: a value or a thrown error *)

Module Completion.

Inductive JsError := TypeError.

Inductive t (A : Type) : Type :=
| Normal (a : A)
| Throw (e : JsError).
Arguments Normal {A} a.
Arguments Throw {A} e.

#[global] Instance completion_ret : MRet t := fun A a => Normal a.

#[global] Instance completion_bind : MBind t := fun A B k c =>
  match c with
  | Normal a => k a
  | Throw e => Throw e
  end.

#[global] Instance completion_fmap : FMap t := fun A B f c =>
  match c with
  | Normal a => Normal (f a)
  | Throw e => Throw e
  end.

(** Reading a property of a value that may be [undefined]. *)
Definition member {A B} (o : option A) (field : A -> B) : t B :=
  match o with
  | Some a => Normal (field a)
  | None => Throw TypeError
  end.

End Completion.

Import Completion (Normal, Throw, TypeError).

(** ** Platform identifiers and the service registry *)

Module Platforms.

(** [type TPlatform = 'twitch' | 'youtube' | 'mixer' | 'facebook'] *)
Inductive TPlatform := twitch | youtube | mixer | facebook.

(** The string a platform identifier is at run time. *)
Definition platformKey (p : TPlatform) : string :=
  match p with
  | twitch => "twitch"
  | youtube => "youtube"
  | mixer => "mixer"
  | facebook => "facebook"
  end.

#[global] Instance TPlatform_eq_dec : EqDecision TPlatform.
Proof. solve_decision. Defined.

#[global] Instance TPlatform_countable : Countable TPlatform.
Proof.
  refine (inj_countable'
            (fun p => match p with
                      | twitch => 0 | youtube => 1 | mixer => 2 | facebook => 3
                      end)
            (fun n => match n with
                      | 0 => twitch | 1 => youtube | 2 => mixer | _ => facebook
                      end) _).
  intros []; reflexivity.
Defined.

(** The two read-only fields of [IPlatformService] that the components
    use; the methods of the interface are never called by them. *)
Record IPlatformService := {
  platform : TPlatform;
  displayName : string
}.

Section Registry.

(** The singletons [TwitchService.instance], [YoutubeService.instance],
    [MixerService.instance] and [FacebookService.instance]; their classes
    live in other files. *)
Variables TwitchService_instance YoutubeService_instance
          MixerService_instance FacebookService_instance : IPlatformService.

(** The object literal that [getPlatformService] indexes. *)
Definition services : gmap string IPlatformService :=
  <["twitch" := TwitchService_instance]>
    (<["youtube" := YoutubeService_instance]>
       (<["mixer" := MixerService_instance]>
          (<["facebook" := FacebookService_instance]> ∅))).

(** [getPlatformService(platform)]: [None] is JavaScript's [undefined]. *)
Definition getPlatformService (p : TPlatform) : option IPlatformService :=
  services !! platformKey p.

(** The instance the registry is meant to give for each identifier. *)
Definition instanceOf (p : TPlatform) : IPlatformService :=
  match p with
  | twitch => TwitchService_instance
  | youtube => YoutubeService_instance
  | mixer => MixerService_instance
  | facebook => FacebookService_instance
  end.

End Registry.

End Platforms.

(** ** Records of the streaming service read by the components

    The declarations of [services/streaming] are not among the four
    files; the records below follow the data model of the specification
    and list the properties the components read or write. *)

Module Streaming.
Import Platforms.

(** Modelled from the spec: [TGoLiveChecklistItemState] of
    [services/streaming], the status enum
    ['not-started' | 'pending' | 'done' | 'failed']. *)
Inductive TGoLiveChecklistItemState := not_started | pending | done | failed.

#[global] Instance TGoLiveChecklistItemState_eq_dec :
  EqDecision TGoLiveChecklistItemState.
Proof. solve_decision. Defined.

Definition stateKey (s : TGoLiveChecklistItemState) : string :=
  match s with
  | not_started => "not-started"
  | pending => "pending"
  | done => "done"
  | failed => "failed"
  end.

(** Modelled from the spec: the per-platform destination record of
    [IStreamSettings] (enabled flag, title, description, broadcast id);
    the platform flags together with the start-stream options that the
    editor binds. *)
Record IDestination := {
  enabled : bool;
  title : string;
  description : string;
  broadcastId : string
}.

(** Modelled from the spec: [IStreamSettings] of [services/streaming], a
    mapping from platform identifier to destination record plus the
    advanced-mode flag. [destinations] is an object keyed by platform; a
    platform without a destination has no key ([destinations.youtube] is
    [undefined], which [GoLiveChecklist] guards with [?.]). *)
Record IStreamSettings := {
  destinations : gmap TPlatform IDestination;
  advancedMode : bool
}.

(** Modelled from the spec: the checklist of [IStreamInfo], a mapping
    from stage name to status with the entries that [GoLiveChecklist]
    reads; [platformItem p] is [checklist[p]]. *)
Record IChecklist := {
  platformItem : TPlatform -> TGoLiveChecklistItemState;
  setupRestream : TGoLiveChecklistItemState;
  applyOptimizedSettings : TGoLiveChecklistItemState;
  startVideoTransmission : TGoLiveChecklistItemState;
  publishYoutubeBroadcast : TGoLiveChecklistItemState;
  postTweet : TGoLiveChecklistItemState
}.

(** Modelled from the spec: the error object of the stream info; the
    components only test whether it is there. *)
Record IStreamError := { message : string }.

(** Modelled from the spec: [info] of the streaming view, with
    [lifecycle], [error] and [checklist]. *)
Record IStreamInfo := {
  lifecycle : string;
  error : option IStreamError;    (* [null] is [None] *)
  checklist : IChecklist
}.

(** Modelled from the spec: the view [streamingService.views], with the
    getters that the two components read. *)
Record StreamInfoView := {
  info : IStreamInfo;
  enabledPlatforms : list TPlatform;
  isMutliplatformMode : bool;
  isMidStreamMode : bool;
  goLiveSettings : IStreamSettings
}.

End Streaming.

(** ** [BaseEditStreamInfo] *)

Module BaseEditStreamInfo.
Import Platforms Streaming.

(** [Object.keys(o)]: every key once. The enumeration order of the model
    is the map's, not the insertion order; only the number of keys that
    pass the filter is used below. *)
Definition Object_keys (o : gmap TPlatform IDestination) : list TPlatform :=
  (map_to_list o).*1.

(** [this.settings.destinations[platform].enabled] for a key of the
    object; a key always has a destination (see [Object_keys_lookup]). *)
Definition destinationEnabled (o : gmap TPlatform IDestination)
    (platform : TPlatform) : bool :=
  match o !! platform with
  | Some d => enabled d
  | None => false
  end.

Definition enabledPlatforms (settings : IStreamSettings) : list TPlatform :=
  filter (fun platform => destinationEnabled (destinations settings) platform = true)
         (Object_keys (destinations settings)).

Definition canShowOnlyRequiredFields (settings : IStreamSettings) : bool :=
  bool_decide (1 < length (enabledPlatforms settings))
  && negb (advancedMode settings).

(** A platform's destination exists and has its [enabled] flag set. *)
Definition flagSet (settings : IStreamSettings) (p : TPlatform) : Prop :=
  exists d, destinations settings !! p = Some d /\ enabled d = true.

End BaseEditStreamInfo.

(** ** The youtube records read by the editor *)

Module Youtube.

(** Modelled from the spec: the title and description of a broadcast
    descriptor, [snippet] in [services/platforms/youtube]. *)
Record ISnippet := {
  title : string;
  description : string
}.

(** Modelled from the spec: [IYoutubeLiveBroadcast] of
    [services/platforms/youtube], the broadcast descriptor; only [id]
    and [snippet] are read. *)
Record IYoutubeLiveBroadcast := {
  id : string;
  snippet : ISnippet
}.

End Youtube.

(** ** [YoutubeEditStreamInfo] *)

Module YoutubeEditStreamInfo.
Import Platforms Streaming BaseEditStreamInfo.

(** The component instance: [settings] is the object shared with the
    parent through [value]; [view] is [streamingService.views]. *)
Record Component := {
  settings : IStreamSettings;
  broadcasts : list Youtube.IYoutubeLiveBroadcast;
  broadcastsLoaded : bool;
  view : StreamInfoView
}.

Definition canChangeBroadcast (this : Component) : bool :=
  negb (isMidStreamMode (view this)).

(** [array.find(callback)] with a callback that may throw. *)
Fixpoint find_ {A} (callback : A -> Completion.t bool) (array : list A)
    : Completion.t (option A) :=
  match array with
  | [] => Normal None
  | x :: rest =>
      found ← callback x;
      if (found : bool) then Normal (Some x) else find_ callback rest
  end.

(** [ytSettings.title = title], on the object that
    [settings.destinations.youtube] refers to. *)
Definition set_title (title : string) (d : IDestination) : IDestination :=
  {| enabled := enabled d; Streaming.title := title;
     Streaming.description := Streaming.description d;
     broadcastId := broadcastId d |}.

Definition set_description (description : string) (d : IDestination)
    : IDestination :=
  {| enabled := enabled d; Streaming.title := Streaming.title d;
     Streaming.description := description;
     broadcastId := broadcastId d |}.

(** The component after the object behind [destinations.youtube] has
    been replaced by [d]. *)
Definition with_youtube (this : Component) (d : IDestination) : Component :=
  {| settings :=
       {| destinations := <[youtube := d]> (destinations (settings this));
          advancedMode := advancedMode (settings this) |};
     broadcasts := broadcasts this;
     broadcastsLoaded := broadcastsLoaded this;
     view := view this |}.

(** [onSelectBroadcastHandler()]: how the call completes, and the
    component after it. *)
Definition onSelectBroadcastHandler (this : Component)
    : Completion.t unit * Component :=
  let ytSettings := destinations (settings this) !! youtube in
  let selectedBroadcast :=
    find_ (fun broadcast =>
             selected ← Completion.member ytSettings broadcastId;
             mret (bool_decide (Youtube.id broadcast = selected)))
          (broadcasts this) in
  match selectedBroadcast with
  | Throw e => (Throw e, this)
  | Normal None => (Normal (), this)
  | Normal (Some selectedBroadcast) =>
      let title := Youtube.title (Youtube.snippet selectedBroadcast) in
      let description := Youtube.description (Youtube.snippet selectedBroadcast) in
      match ytSettings with
      | None => (Throw TypeError, this)
      | Some yt =>
          (Normal (), with_youtube this (set_description description (set_title title yt)))
      end
  end.

(** The [event] entry of [formMetadata]. *)
Record EventMetadata := {
  event_broadcasts : list Youtube.IYoutubeLiveBroadcast;
  loading : bool;
  disabled : bool
}.

Definition formMetadata_event (this : Component) : EventMetadata :=
  {| event_broadcasts := broadcasts this;
     loading := negb (broadcastsLoaded this);
     disabled := negb (canChangeBroadcast this) |}.

(** The component as its field initialisers leave it: [broadcasts = []]
    and [broadcastsLoaded = false]; [settings] is synchronised with the
    [value] prop. *)
Definition constructed (settings : IStreamSettings) (view : StreamInfoView)
    : Component :=
  {| settings := settings;
     broadcasts := [];
     broadcastsLoaded := false;
     view := view |}.

(** [async created()], once [youtubeService.fetchBroadcasts()] has
    settled: with [Some fetched] when the promise resolved, with [None]
    when it rejected, in which case neither assignment after the [await]
    is reached. *)
Definition created (fetchBroadcasts : option (list Youtube.IYoutubeLiveBroadcast))
    (this : Component) : Component :=
  match fetchBroadcasts with
  | Some fetched =>
      {| settings := settings this;
         broadcasts := fetched;
         broadcastsLoaded := true;
         view := view this |}
  | None => this
  end.

(** The methods bound as [onInput] listeners. *)
Inductive Listener := emitInput | onSelectBroadcast.

(** The nodes that [render] builds. *)
#[warnings="-register-all"]
Inductive VNode :=
| ValidatedForm (onInput : Listener) (children : list VNode)
| HFormGroup (title : string) (children : list VNode)
| BroadcastInput (onInput : Listener) (vModel : string) (metadata : EventMetadata)
| CommonPlatformFields (vModel : IStreamSettings) (platform : TPlatform).

(** What [render] returns: the boolean [false] of a short-circuited
    [&&], for which Vue puts nothing in the page, or a node. *)
Inductive Rendered := RFalse | RNode (n : VNode).

Section Render.

(** [$t] of [services/i18n]. *)
Variable translate : string -> string.

Definition render (this : Component) : Completion.t Rendered :=
  let canShowOnlyRequiredFields := canShowOnlyRequiredFields (settings this) in
  if negb canShowOnlyRequiredFields then
    vModel ← Completion.member (destinations (settings this) !! youtube) broadcastId;
    mret (RNode
      (ValidatedForm emitInput
         [ HFormGroup (translate "Event")
             [ BroadcastInput onSelectBroadcast vModel (formMetadata_event this) ];
           CommonPlatformFields (settings this) youtube ]))
  else mret RFalse.

End Render.

End YoutubeEditStreamInfo.

(** ** Numbers as text

    A number placed among JSX children is shown as [String(x)]. This is
    [Number::toString] of ECMA-262 for radix 10: the shortest decimal that
    reads back as the same double, laid out with or without an
    exponent. *)

Module JsNumber.
Local Open Scope Z_scope.

Definition digitChar (d : Z) : Ascii.ascii := Ascii.ascii_of_nat (48 + Z.to_nat d).

Fixpoint decimal_go (fuel : nat) (n : Z) (acc : string) : string :=
  match fuel with
  | O => acc
  | S fuel =>
      let acc := String (digitChar (n mod 10)) acc in
      if n <? 10 then acc else decimal_go fuel (n / 10) acc
  end.

(** The decimal digits of a natural number. *)
Definition decimal (n : Z) : string :=
  decimal_go (S (Z.to_nat (Z.log2 n))) n "".

Definition zeros (n : Z) : string := String.concat "" (replicate (Z.to_nat n) "0"%string).

(** A finite positive double is [m * 2^e]; a decimal candidate is
    [s * 10^q]. Both are compared after scaling to integers: the double
    (in quarters of its last place) by [scaleX], the decimal by [scaleV]. *)
Definition scaleX (e q : Z) : Z :=
  (if 0 <=? e - 2 then 2 ^ (e - 2) else 1) * (if q <? 0 then 10 ^ (- q) else 1).
Definition scaleV (e q : Z) : Z :=
  (if 0 <=? q then 10 ^ q else 1) * (if e - 2 <? 0 then 2 ^ (- (e - 2)) else 1).

(** The least [n] from [n0] on with [m * 2^e < 10^n]. *)
Fixpoint decade (fuel : nat) (m e n : Z) : Z :=
  match fuel with
  | O => n
  | S fuel => if 4 * m * scaleX e n <? scaleV e n then n else decade fuel m e (n + 1)
  end.

(** The decimals that read back as the double [m * 2^e] are those between
    the midpoints to its two neighbours, the midpoints included when [m]
    is even (ties go to the even mantissa). Below a power of two the
    lower neighbour is half as far. *)
Definition readsBack (m e s q : Z) : bool :=
  let lo := if (m =? 2 ^ 52) && (-1074 <? e) then 4 * m - 1 else 4 * m - 2 in
  let hi := 4 * m + 2 in
  let v := s * scaleV e q in
  if Z.even m
  then (lo * scaleX e q <=? v) && (v <=? hi * scaleX e q)
  else (lo * scaleX e q <? v) && (v <? hi * scaleX e q).

(** The shortest digit string: the first [k] for which a [k]-digit
    decimal reads back as the double, and of the (at most two) such
    decimals the one closer to it. The result is [(s, q)]. *)
Fixpoint shortest (fuel : nat) (m e n k : Z) : Z * Z :=
  let q := n - k in
  let x := 4 * m * scaleX e q in
  let u := scaleV e q in
  let below := x / u in
  let above := below + 1 in
  let okBelow := (10 ^ (k - 1) <=? below) && readsBack m e below q in
  let okAbove := readsBack m e above q in
  let pick :=
    if okBelow && okAbove then
      let dBelow := x - below * u in
      let dAbove := above * u - x in
      if dBelow <? dAbove then Some below
      else if dAbove <? dBelow then Some above
      else if Z.even below then Some below else Some above
    else if okBelow then Some below
    else if okAbove then Some above
    else None in
  match pick, fuel with
  | Some s, _ => (s, q)
  | None, O => (below, q)
  | None, S fuel => shortest fuel m e n (k + 1)
  end.

Fixpoint stripZeros (fuel : nat) (s q : Z) : Z * Z :=
  match fuel with
  | O => (s, q)
  | S fuel => if (s mod 10 =? 0) && (0 <? s) then stripZeros fuel (s / 10) (q + 1) else (s, q)
  end.

(** The formatting step of [Number::toString] for digits [s] (written
    with [k] digits) and decimal point position [n]. *)
Definition format (digits : string) (k n : Z) : string :=
  if (k <=? n) && (n <=? 21) then digits +:+ zeros (n - k)
  else if (0 <? n) && (n <=? 21) then
    String.substring 0 (Z.to_nat n) digits +:+ "." +:+ String.substring (Z.to_nat n) (Z.to_nat (k - n)) digits
  else if (-6 <? n) && (n <=? 0) then
    "0." +:+ zeros (- n) +:+ digits
  else
    let exponent := (if 0 <=? n - 1 then "+" else "-") +:+ decimal (Z.abs (n - 1)) in
    if k =? 1 then digits +:+ "e" +:+ exponent
    else String.substring 0 1 digits +:+ "." +:+ String.substring 1 (Z.to_nat (k - 1)) digits +:+ "e" +:+ exponent.

Definition toStringPositive (m e : Z) : string :=
  let n := decade 700 m e (-330) in
  let '(s, q) := shortest 17 m e n 1 in
  let '(s, q) := stripZeros 400 s q in
  let digits := decimal s in
  let k := Z.of_nat (String.length digits) in
  format digits k (k + q).

(** [String(x)] for a number. *)
Definition toString (x : float) : string :=
  match Prim2SF x with
  | S754_nan => "NaN"
  | S754_zero _ => "0"
  | S754_infinity false => "Infinity"
  | S754_infinity true => "-Infinity"
  | S754_finite sign m e =>
      (if sign then "-" else "") +:+ toStringPositive (Z.pos m) e
  end.

End JsNumber.

Arguments JsNumber.toString : simpl never.

(** ** JSX children and what Vue keeps of them *)

Module Jsx.

(** A class name: written out in the source, or looked up in the
    component's style sheet ([styles.key], [styles[key]]). *)
Inductive Class := Css (name : string) | Styles (key : string).

(** The values that occur as JSX children. [Bool] and [Undefined] are
    what a short-circuited [&&] leaves behind. *)
#[warnings="-register-all"]
Inductive Child :=
| Bool (b : bool)
| Undefined
| Text (s : string)
| Number (x : float)
| Array (items : list Child)
| Element (tag : string) (key : option string) (class : list Class)
          (children : list Child)
| Transition (name : string) (children : list Child)
| ComponentNode (name : string).

(** JavaScript truthiness. *)
Definition truthy (c : Child) : bool :=
  match c with
  | Bool b => b
  | Undefined => false
  | Text s => negb (bool_decide (s = ""))
  | Number x => negb (PrimFloat.eqb x 0 || PrimFloat.is_nan x)
  | _ => true
  end.

(** [a && b] *)
Definition and_ (a b : Child) : Child := if truthy a then b else a.

(** A [class] binding given as an object from class names to flags. *)
Definition classObject (entries : list (Class * bool)) : list Class :=
  (filter (fun entry => entry.2 = true) entries).*1.

(** Adjacent text children become one text node; an empty one is
    dropped. *)
Fixpoint mergeText (pending : string) (children : list Child) : list Child :=
  let flush rest := if bool_decide (pending = "") then rest else Text pending :: rest in
  match children with
  | [] => flush []
  | Text s :: rest => mergeText (pending +:+ s) rest
  | c :: rest => flush (c :: mergeText "" rest)
  end.

(** Vue's normalisation of children: booleans and [undefined] are
    skipped, arrays are spliced in, numbers become text. *)
Fixpoint normalize (c : Child) : list Child :=
  match c with
  | Bool _ | Undefined => []
  | Text s => [Text s]
  | Number x => [Text (JsNumber.toString x)]
  | Array items => flat_map normalize items
  | Element tag key class children =>
      [Element tag key class (mergeText "" (flat_map normalize children))]
  | Transition name children =>
      [Transition name (mergeText "" (flat_map normalize children))]
  | ComponentNode name => [ComponentNode name]
  end.

Definition normalizeChildren (children : list Child) : list Child :=
  mergeText "" (flat_map normalize children).

(** Whether Vue keeps anything of a child. *)
Definition renders (c : Child) : bool :=
  match normalizeChildren [c] with
  | [] => false
  | _ :: _ => true
  end.

(** The [class] of an element. *)
Definition classOf (c : Child) : list Class :=
  match c with
  | Element _ _ class _ => class
  | _ => []
  end.

(** The classes of the elements with a given tag, in document order
    (the element itself included, a [transition] looked through). *)
Fixpoint classesByTagName (tag : string) (c : Child) : list (list Class) :=
  match c with
  | Array items => flat_map (classesByTagName tag) items
  | Element tag' _ class children =>
      (if bool_decide (tag' = tag) then [class] else [])
      ++ flat_map (classesByTagName tag) children
  | Transition _ children => flat_map (classesByTagName tag) children
  | _ => []
  end.

End Jsx.

(** ** [GoLiveChecklist] and its [CheckMark] *)

Module GoLiveChecklist.
Import Platforms Streaming Jsx.

(** The component instance with the service state it reads:
    [view] is [streamingService.views], [progress] is
    [youtubeService.progressInfo.progress], [tweetWhenGoingLive] and
    [useOptimizedProfile] are read from the state of the twitter and the
    encoding-optimization services, [isUpdateMode] is the prop. *)
Record Component := {
  view : StreamInfoView;
  progress : float;
  tweetWhenGoingLive : bool;
  useOptimizedProfile : bool;
  isUpdateMode : bool
}.

(** [CheckMark.render()]; [cx(styles.check, styles[state])] is the pair
    of the two style-sheet classes. *)
Definition CheckMark_render (state : TGoLiveChecklistItemState) : Child :=
  let cssClass := [Styles "check"; Styles (stateKey state)] in
  Element "span" None cssClass
    [ and_ (Bool (bool_decide (state = not_started)))
           (Element "i" None [Css "fa fa-circle"] []);
      and_ (Bool (bool_decide (state = pending)))
           (Element "i" None [Css "fa fa-spinner fa-pulse"] []);
      Transition "checkboxdone"
        [ and_ (Bool (bool_decide (state = done)))
               (Element "i" (Some "done") [Css "fa fa-check"] []) ];
      and_ (Bool (bool_decide (state = failed)))
           (Element "i" None [Css "fa fa-times"] []) ].

Section Render.

(** The four service singletons behind [getPlatformService]. *)
Variables TwitchService_instance YoutubeService_instance
          MixerService_instance FacebookService_instance : IPlatformService.

(** [$t] of [services/i18n], with the interpolation parameters. *)
Variable translate : string -> list (string * string) -> string.

Definition error (this : Component) : option IStreamError :=
  Streaming.error (info (view this)).

Definition getPlatformDisplayName (platform : TPlatform) : Completion.t string :=
  Completion.member
    (getPlatformService TwitchService_instance YoutubeService_instance
       MixerService_instance FacebookService_instance platform)
    displayName.

Definition getHeaderText (this : Component) : string :=
  match error this with
  | Some _ => translate "Something went wrong" []
  | None =>
      if bool_decide (lifecycle (info (view this)) = "live")
      then translate "You're live!" []
      else translate "Working on your live stream" []
  end.

Definition renderYoutubePercentage (this : Component) : Child :=
  if bool_decide (publishYoutubeBroadcast (checklist (info (view this))) = not_started)
  then Text ""
  else Element "span" None [Styles "pending"]
         [Text " "; Number (progress this * 100); Text "%"].

Definition renderCheck (this : Component) (title : string)
    (state : TGoLiveChecklistItemState) (renderYTPercentage : bool) : Child :=
  Element "li" (Some title)
    (classObject [ (Styles "notStarted", bool_decide (state = not_started));
                   (Styles "itemError", bool_decide (state = failed)) ])
    [ CheckMark_render state;
      Text title;
      and_ (Bool renderYTPercentage) (renderYoutubePercentage this) ].

(** [!isUpdateMode && goLiveSettings.destinations.youtube?.enabled] *)
Definition shouldPublishYT (this : Component) : Child :=
  and_ (Bool (negb (isUpdateMode this)))
       (match destinations (goLiveSettings (view this)) !! youtube with
        | Some yt => Bool (enabled yt)
        | None => Undefined
        end).

Definition shouldShowOptimizedProfile (this : Component) : Child :=
  and_ (Bool (useOptimizedProfile this)) (Bool (negb (isUpdateMode this))).

Definition shouldPostTweet (this : Component) : Child :=
  Bool (tweetWhenGoingLive this).

(** The children of the list, one definition per commented block of
    [render]. *)
Definition platformUpdateItem (this : Component) (platform : TPlatform)
    : Completion.t Child :=
  name ← getPlatformDisplayName platform;
  mret (renderCheck this
          (translate "Update settings for %{platform}" [("platform", name)])
          (platformItem (checklist (info (view this))) platform)
          false).

Definition restreamItem (this : Component) : Child :=
  and_ (and_ (Bool (negb (isUpdateMode this)))
             (Bool (isMutliplatformMode (view this))))
       (renderCheck this (translate "Configure the Restream service" [])
          (setupRestream (checklist (info (view this)))) false).

Definition optimizedProfileItem (this : Component) : Child :=
  and_ (shouldShowOptimizedProfile this)
       (renderCheck this (translate "Apply optimized settings" [])
          (applyOptimizedSettings (checklist (info (view this)))) false).

Definition startTransmissionItem (this : Component) : Child :=
  and_ (Bool (negb (isUpdateMode this)))
       (renderCheck this (translate "Start video transmission" [])
          (startVideoTransmission (checklist (info (view this)))) false).

Definition publishYTItem (this : Component) : Child :=
  and_ (shouldPublishYT this)
       (renderCheck this (translate "Publish Youtube broadcast" [])
          (publishYoutubeBroadcast (checklist (info (view this)))) true).

Definition postTweetItem (this : Component) : Child :=
  and_ (shouldPostTweet this)
       (renderCheck this (translate "Post a tweet" [])
          (postTweet (checklist (info (view this)))) false).

(** The children of [<ul class={styles.checklist}>]. *)
Definition checklistChildren (this : Component) : Completion.t (list Child) :=
  platforms ← mapM (platformUpdateItem this) (enabledPlatforms (view this));
  mret [ Array platforms;
         restreamItem this;
         optimizedProfileItem this;
         startTransmissionItem this;
         publishYTItem this;
         postTweetItem this ].

Definition render (this : Component) : Completion.t Child :=
  items ← checklistChildren this;
  mret (Element "div" None [Styles "container"]
          [ Element "h1" None [] [Text (getHeaderText this)];
            Element "ul" None [Styles "checklist"] items;
            ComponentNode "GoLiveError" ]).

End Render.

End GoLiveChecklist.

(** ** The conditions of the checklist stages, as booleans *)

Module Gates.
Import Platforms Streaming GoLiveChecklist.

Definition restream (this : Component) : bool :=
  negb (isUpdateMode this) && isMutliplatformMode (view this).

Definition optimizedProfile (this : Component) : bool :=
  useOptimizedProfile this && negb (isUpdateMode this).

Definition startTransmission (this : Component) : bool :=
  negb (isUpdateMode this).

Definition publishYT (this : Component) : bool :=
  negb (isUpdateMode this)
  && match destinations (goLiveSettings (view this)) !! youtube with
     | Some yt => enabled yt
     | None => false
     end.

Definition postTweet (this : Component) : bool :=
  tweetWhenGoingLive this.


End Gates.

(** ** The documented behaviour, as tables *)

Module Documented.
Import Platforms Streaming Jsx.

(** The icon of each stage status: circle, spinning spinner, check
    mark, cross. *)
Definition icon (state : TGoLiveChecklistItemState) : string :=
  match state with
  | not_started => "fa fa-circle"
  | pending => "fa fa-spinner fa-pulse"
  | done => "fa fa-check"
  | failed => "fa fa-times"
  end.

(** The styling class of the stage's list item: the not-started class,
    the error class, or none. *)
Definition itemClass (state : TGoLiveChecklistItemState) : list Class :=
  match state with
  | not_started => [Styles "notStarted"]
  | failed => [Styles "itemError"]
  | pending | done => []
  end.

(** The double that the literal [0.42] denotes. *)
Definition progress42 : float := 0x1.ae147ae147ae1p-2%float.

(** The progress of a whole percentage: the double nearest to [k / 100],
    which is what the literal [0.k] denotes. *)
Definition ofPercent (k : nat) : float :=
  (PrimFloat.of_uint63 (Uint63.of_Z (Z.of_nat k)) / 100)%float.

(** The whole percentages whose hundredfold progress is not a whole
    number again. *)
Definition inexactPercents : list nat := [7; 14; 28; 29; 55; 56; 57; 58].

End Documented.

(** ** Concrete instances *)

Module Examples.
Import Platforms Streaming.

(** [$t] in the English locale: the key is the text, and each
    [%{name}] is replaced by the parameter of that name. *)
Definition interpolate (text : string) (param : string * string) : string :=
  let pattern := "%{" +:+ param.1 +:+ "}" in
  match String.index 0 pattern text with
  | Some i =>
      String.substring 0 i text +:+ param.2
      +:+ String.substring (i + String.length pattern)
            (String.length text - i - String.length pattern) text
  | None => text
  end.

Definition english (key : string) (params : list (string * string)) : string :=
  foldl interpolate key params.

Definition twitchService : IPlatformService :=
  {| platform := twitch; displayName := "Twitch" |}.
Definition youtubeService : IPlatformService :=
  {| platform := youtube; displayName := "YouTube" |}.
Definition mixerService : IPlatformService :=
  {| platform := mixer; displayName := "Mixer" |}.
Definition facebookService : IPlatformService :=
  {| platform := facebook; displayName := "Facebook" |}.

Definition twitchDestination : IDestination :=
  {| enabled := true; title := "Speedrun"; description := "";
     broadcastId := "" |}.

Definition youtubeDestination : IDestination :=
  {| enabled := true; title := "Old title"; description := "Old description";
     broadcastId := "b2" |}.

(** Youtube alone: the editor shows its form. *)
Definition youtubeOnly : IStreamSettings :=
  {| destinations := <[youtube := youtubeDestination]> ∅;
     advancedMode := false |}.

(** Twitch alone: the settings have no youtube destination. *)
Definition twitchOnly : IStreamSettings :=
  {| destinations := <[twitch := twitchDestination]> ∅;
     advancedMode := false |}.

(** Twitch and youtube together outside advanced mode. *)
Definition twoPlatforms : IStreamSettings :=
  {| destinations :=
       <[twitch := twitchDestination]> (<[youtube := youtubeDestination]> ∅);
     advancedMode := false |}.

Definition fetched : list Youtube.IYoutubeLiveBroadcast :=
  [ {| Youtube.id := "b1";
       Youtube.snippet := {| Youtube.title := "Monday show";
                             Youtube.description := "Weekly" |} |};
    {| Youtube.id := "b2";
       Youtube.snippet := {| Youtube.title := "Friday show";
                             Youtube.description := "Special" |} |} ].

Definition runningChecklist : IChecklist :=
  {| platformItem := fun p => match p with twitch => done | _ => pending end;
     setupRestream := not_started;
     applyOptimizedSettings := not_started;
     startVideoTransmission := not_started;
     publishYoutubeBroadcast := pending;
     postTweet := failed |}.

Definition goingLive : StreamInfoView :=
  {| info := {| lifecycle := "runChecklist"; error := None;
                checklist := runningChecklist |};
     enabledPlatforms := [twitch; youtube];
     isMutliplatformMode := true;
     isMidStreamMode := false;
     goLiveSettings := twoPlatforms |}.

(** The stream is live; and live with an error reported. *)
Definition live : StreamInfoView :=
  {| info := {| lifecycle := "live"; error := None;
                checklist := runningChecklist |};
     enabledPlatforms := [twitch; youtube];
     isMutliplatformMode := true;
     isMidStreamMode := true;
     goLiveSettings := twoPlatforms |}.

Definition liveWithError : StreamInfoView :=
  {| info := {| lifecycle := "live";
                error := Some {| message := "Failed to update settings" |};
                checklist := runningChecklist |};
     enabledPlatforms := [twitch; youtube];
     isMutliplatformMode := true;
     isMidStreamMode := true;
     goLiveSettings := twoPlatforms |}.

Definition window (view : StreamInfoView) (isUpdateMode : bool)
    : GoLiveChecklist.Component :=
  {| GoLiveChecklist.view := view;
     GoLiveChecklist.progress := Documented.progress42;
     GoLiveChecklist.tweetWhenGoingLive := true;
     GoLiveChecklist.useOptimizedProfile := true;
     GoLiveChecklist.isUpdateMode := isUpdateMode |}.

(** The selected id is of a broadcast that is no longer in the list. *)
Definition staleDestination : IDestination :=
  {| enabled := true; title := "Old title"; description := "Old description";
     broadcastId := "gone" |}.

Definition editorOf (settings : IStreamSettings)
    : YoutubeEditStreamInfo.Component :=
  {| YoutubeEditStreamInfo.settings := settings;
     YoutubeEditStreamInfo.broadcasts := fetched;
     YoutubeEditStreamInfo.broadcastsLoaded := true;
     YoutubeEditStreamInfo.view := goingLive |}.

Definition staleEditor : YoutubeEditStreamInfo.Component :=
  editorOf {| destinations := <[youtube := staleDestination]> ∅;
              advancedMode := false |}.

Definition editor : YoutubeEditStreamInfo.Component :=
  {| YoutubeEditStreamInfo.settings := youtubeOnly;
     YoutubeEditStreamInfo.broadcasts := fetched;
     YoutubeEditStreamInfo.broadcastsLoaded := true;
     YoutubeEditStreamInfo.view := goingLive |}.

(** The checklist window while going live, and while updating a
    running stream. *)
Definition goLiveWindow : GoLiveChecklist.Component := window goingLive false.

Definition updateWindow : GoLiveChecklist.Component := window goingLive true.

End Examples.

(** * Properties *)

Module CompletionFacts.
Import Completion.

(** [xs.map(f)] with a callback that never throws is the plain map. *)
Lemma mapM_total {A B} (f : A -> t B) (g : A -> B) (xs : list A) :
  (forall x, f x = Normal (g x)) -> mapM f xs = Normal (g <$> xs).
Proof.
  intros Hf. induction xs as [|x rest IH]; simpl; [reflexivity|].
  rewrite Hf. simpl. rewrite IH. reflexivity.
Qed.

End CompletionFacts.

(** ** Numbers as text *)

Module JsNumberSpec.

(** Well-known values of [String(x)]: whole numbers, the sum of a tenth
    and two tenths, a third, the switch to exponents at [1e21] and below
    [1e-6], signs, zero and the non-finite values. *)
Example toString_known :
  JsNumber.toString 42 = "42"
  /\ JsNumber.toString 9007199254740992 = "9007199254740992"
  /\ JsNumber.toString (1 / 10 + 2 / 10) = "0.30000000000000004"
  /\ JsNumber.toString (1 / 3) = "0.3333333333333333"
  /\ JsNumber.toString (1 / 1000000) = "0.000001"
  /\ JsNumber.toString (1 / 10000000) = "1e-7"
  /\ JsNumber.toString 100000000000000000000 = "100000000000000000000"
  /\ JsNumber.toString 1e21 = "1e+21"
  /\ JsNumber.toString (- 5 / 4) = "-1.25"
  /\ JsNumber.toString 0 = "0"
  /\ JsNumber.toString (0 / 0) = "NaN"
  /\ JsNumber.toString (1 / 0) = "Infinity".
Proof. vm_compute. repeat split. Qed.

End JsNumberSpec.

(** ** The service registry *)

Module PlatformsSpec.
Import Platforms.

Section Registry.

Variables TwitchService_instance YoutubeService_instance
          MixerService_instance FacebookService_instance : IPlatformService.

Local Abbreviation services :=
  (Platforms.services TwitchService_instance YoutubeService_instance
     MixerService_instance FacebookService_instance).
Local Abbreviation getPlatformService :=
  (Platforms.getPlatformService TwitchService_instance YoutubeService_instance
     MixerService_instance FacebookService_instance).
Local Abbreviation instanceOf :=
  (Platforms.instanceOf TwitchService_instance YoutubeService_instance
     MixerService_instance FacebookService_instance).

Lemma getPlatformService_lookup (p : TPlatform) :
  getPlatformService p = Some (instanceOf p).
Proof. destruct p; reflexivity. Qed.

Lemma platformKey_elem (k : string) :
  (exists p, k = platformKey p) <-> k ∈ ["twitch"; "youtube"; "mixer"; "facebook"].
Proof.
  split.
  - intros [[] ->]; simpl; set_solver.
  - rewrite !elem_of_cons, elem_of_nil.
    intros [->|[->|[->|[->|[]]]]];
      [by exists twitch|by exists youtube|by exists mixer|by exists facebook].
Qed.

Lemma services_keys (k : string) :
  is_Some (services !! k) <-> exists p, k = platformKey p.
Proof.
  split.
  - intros [s Hs]. unfold Platforms.services in Hs.
    apply lookup_insert_Some in Hs as [[<- _]|[_ Hs]]; [by exists twitch|].
    apply lookup_insert_Some in Hs as [[<- _]|[_ Hs]]; [by exists youtube|].
    apply lookup_insert_Some in Hs as [[<- _]|[_ Hs]]; [by exists mixer|].
    apply lookup_insert_Some in Hs as [[<- _]|[_ Hs]]; [by exists facebook|].
    by rewrite lookup_empty in Hs.
  - intros [p ->]. exists (instanceOf p). apply getPlatformService_lookup.
Qed.

(** C9. [getPlatformService] is total over [TPlatform]: for each of the
    four identifiers it returns the service instance of that platform,
    never [undefined]; the identifiers are exactly ['twitch'], ['youtube'],
    ['mixer'] and ['facebook'], and the registry object has exactly these
    keys. *)
Theorem getPlatformService_total :
  (forall p, getPlatformService p = Some (instanceOf p))
  /\ (forall p, is_Some (getPlatformService p))
  /\ (forall p : TPlatform, p ∈ [twitch; youtube; mixer; facebook])
  /\ (forall k, (exists p, k = platformKey p)
                <-> k ∈ ["twitch"; "youtube"; "mixer"; "facebook"])
  /\ (forall k, is_Some (services !! k)
                <-> k ∈ ["twitch"; "youtube"; "mixer"; "facebook"]).
Proof.
  split; [exact getPlatformService_lookup|].
  split; [intros p; rewrite getPlatformService_lookup; eauto|].
  split; [intros []; set_solver|].
  split; [exact platformKey_elem|].
  intros k. rewrite services_keys. apply platformKey_elem.
Qed.

(** X1. When each service singleton carries its own platform in its
    [platform] field, the registry is a round trip: the service returned
    for a platform names that platform, so no two platforms share a
    service and the display name read through the registry is the one of
    the platform asked for. *)
Theorem getPlatformService_platform :
  (forall p, platform (instanceOf p) = p) ->
  (forall p s, getPlatformService p = Some s -> platform s = p)
  /\ (forall p q, getPlatformService p = getPlatformService q -> p = q).
Proof.
  intros Hown. split.
  - intros p s. rewrite getPlatformService_lookup. intros [= <-]. apply Hown.
  - intros p q. rewrite !getPlatformService_lookup. intros [= Heq].
    rewrite <- (Hown p), <- (Hown q). by rewrite Heq.
Qed.

End Registry.

(** The four services of the example name their own platforms, so the
    one found for youtube is youtube's. *)
Lemma getPlatformService_platform_witness :
  exists s,
    getPlatformService Examples.twitchService Examples.youtubeService
      Examples.mixerService Examples.facebookService youtube = Some s
    /\ platform s = youtube.
Proof.
  exists Examples.youtubeService. split; [reflexivity|].
  apply (proj1 (getPlatformService_platform Examples.twitchService
                  Examples.youtubeService Examples.mixerService
                  Examples.facebookService
                  ltac:(intros []; reflexivity)) youtube).
  reflexivity.
Defined.

End PlatformsSpec.

(** ** [canShowOnlyRequiredFields] *)

Module BaseEditStreamInfoSpec.
Import Platforms Streaming BaseEditStreamInfo.

Lemma Object_keys_lookup o p : p ∈ Object_keys o <-> is_Some (o !! p).
Proof.
  unfold Object_keys. rewrite list_elem_of_fmap. split.
  - intros [[k d] [-> Hin]]. apply elem_of_map_to_list in Hin. by exists d.
  - intros [d Hd]. exists (p, d). split; [done|]. by apply elem_of_map_to_list.
Qed.

Lemma enabledPlatforms_elem settings p :
  p ∈ enabledPlatforms settings <-> flagSet settings p.
Proof.
  unfold enabledPlatforms, flagSet, destinationEnabled.
  rewrite list_elem_of_filter, Object_keys_lookup. split.
  - intros [He [d Hd]]. rewrite Hd in He. eauto.
  - intros [d [Hd He]]. rewrite Hd. eauto.
Qed.

Lemma enabledPlatforms_NoDup settings : NoDup (enabledPlatforms settings).
Proof. apply NoDup_filter, NoDup_fst_map_to_list. Qed.

(** A list without repetition is longer than one exactly when it holds
    two different elements. *)
Lemma NoDup_length_gt_1 {A} (l : list A) :
  NoDup l -> 1 < length l <-> exists x y, x <> y /\ x ∈ l /\ y ∈ l.
Proof.
  intros Hnd. split.
  - destruct l as [|x [|y l]]; simpl; [lia|lia|]. intros _.
    exists x, y. split; [|set_solver].
    apply NoDup_cons in Hnd as [Hx _]. set_solver.
  - intros (x & y & Hne & Hx & Hy).
    destruct l as [|a [|b l]]; simpl; [set_solver| |lia].
    apply list_elem_of_singleton in Hx, Hy. congruence.
Qed.

(** The number of destinations whose [enabled] flag is set. *)
Lemma enabledPlatforms_length settings :
  length (enabledPlatforms settings)
  = size (filter (fun entry => enabled entry.2 = true) (destinations settings)).
Proof.
  rewrite <- length_map_to_list, <- (length_fmap fst).
  apply Permutation_length, NoDup_Permutation.
  - apply enabledPlatforms_NoDup.
  - apply NoDup_fst_map_to_list.
  - intros p. rewrite enabledPlatforms_elem, list_elem_of_fmap. split.
    + intros (d & Hd & He). exists (p, d). split; [done|].
      apply elem_of_map_to_list, map_lookup_filter_Some. done.
    + intros ([k d] & -> & Hin).
      apply elem_of_map_to_list, map_lookup_filter_Some in Hin as [Hd He].
      by exists d.
Qed.

(** C5. [canShowOnlyRequiredFields] is true exactly when strictly more
    than one platform destination has its [enabled] flag set and
    [advancedMode] is off, and false in every other combination. The
    count is given both as the number of flagged destinations and as the
    existence of two different flagged platforms. *)
Theorem canShowOnlyRequiredFields_iff (settings : IStreamSettings) :
  (canShowOnlyRequiredFields settings = true
   <-> 1 < size (filter (fun entry => enabled entry.2 = true) (destinations settings))
       /\ advancedMode settings = false)
  /\ (canShowOnlyRequiredFields settings = true
      <-> (exists p q, p <> q /\ flagSet settings p /\ flagSet settings q)
          /\ advancedMode settings = false)
  /\ (canShowOnlyRequiredFields settings = false
      <-> size (filter (fun entry => enabled entry.2 = true) (destinations settings)) <= 1
          \/ advancedMode settings = true).
Proof.
  unfold canShowOnlyRequiredFields.
  rewrite <- enabledPlatforms_length.
  assert (Htwo : 1 < length (enabledPlatforms settings)
                 <-> exists p q, p <> q /\ flagSet settings p /\ flagSet settings q).
  { rewrite (NoDup_length_gt_1 _ (enabledPlatforms_NoDup settings)).
    by setoid_rewrite enabledPlatforms_elem. }
  rewrite <- Htwo.
  rewrite andb_true_iff, andb_false_iff, bool_decide_eq_true,
    bool_decide_eq_false, negb_true_iff, negb_false_iff.
  split; [done|]. split; [done|].
  split; (intros [?|?]; [left; lia|by right]).
Qed.

(** The six combinations of zero, one or two enabled destinations with
    [advancedMode] on or off, and the settings without any destination. *)
Example canShowOnlyRequiredFields_table :
  let on := {| enabled := true; title := "t"; description := "d"; broadcastId := "b" |} in
  let off := {| enabled := false; title := "t"; description := "d"; broadcastId := "b" |} in
  let settings (destinations : gmap TPlatform IDestination) advanced :=
    {| destinations := destinations; advancedMode := advanced |} in
  let none : gmap TPlatform IDestination := <[twitch := off]> (<[youtube := off]> ∅) in
  let one : gmap TPlatform IDestination := <[twitch := off]> (<[youtube := on]> ∅) in
  let two : gmap TPlatform IDestination := <[twitch := on]> (<[youtube := on]> ∅) in
  canShowOnlyRequiredFields (settings none false) = false
  /\ canShowOnlyRequiredFields (settings none true) = false
  /\ canShowOnlyRequiredFields (settings one false) = false
  /\ canShowOnlyRequiredFields (settings one true) = false
  /\ canShowOnlyRequiredFields (settings two false) = true
  /\ canShowOnlyRequiredFields (settings two true) = false
  /\ canShowOnlyRequiredFields (settings ∅ false) = false.
Proof. vm_compute. repeat split. Qed.

(** The flag in terms of the platforms whose [enabled] flag is set. *)
Lemma canShowOnlyRequiredFields_flagSet (settings : IStreamSettings) :
  canShowOnlyRequiredFields settings = true
  <-> (exists p q, p <> q /\ flagSet settings p /\ flagSet settings q)
      /\ advancedMode settings = false.
Proof.
  unfold canShowOnlyRequiredFields.
  rewrite andb_true_iff, bool_decide_eq_true, negb_true_iff.
  rewrite (NoDup_length_gt_1 _ (enabledPlatforms_NoDup settings)).
  by setoid_rewrite enabledPlatforms_elem.
Qed.

(** X2. [enabledPlatforms] lists exactly the platforms that have a
    destination with the [enabled] flag set, each of them once; a
    platform without a destination or with a disabled one is never
    listed, and the list has at most four entries. *)
Theorem enabledPlatforms_exact (settings : IStreamSettings) :
  (forall p, p ∈ enabledPlatforms settings
             <-> exists d, destinations settings !! p = Some d /\ enabled d = true)
  /\ NoDup (enabledPlatforms settings)
  /\ (forall p, destinations settings !! p = None -> p ∉ enabledPlatforms settings)
  /\ length (enabledPlatforms settings) <= 4.
Proof.
  split; [exact (enabledPlatforms_elem settings)|].
  split; [apply enabledPlatforms_NoDup|]. split.
  - intros p Hnone [d [Hd _]]%enabledPlatforms_elem. congruence.
  - change 4 with (length [twitch; youtube; mixer; facebook]).
    apply submseteq_length, NoDup_submseteq; [apply enabledPlatforms_NoDup|].
    intros [] _; set_solver.
Qed.

(** Settings with the same [enabled] flags flag the same platforms. *)
Lemma flagSet_ext (settings settings' : IStreamSettings) :
  (forall p, enabled <$> destinations settings !! p
             = enabled <$> destinations settings' !! p) ->
  forall p, flagSet settings p <-> flagSet settings' p.
Proof.
  intros Hflags p. unfold flagSet. specialize (Hflags p).
  destruct (destinations settings !! p) as [d|],
           (destinations settings' !! p) as [d'|]; simplify_eq/=.
  - split; intros (? & [= <-] & ?); eexists; split; eauto; congruence.
  - split; intros (? & [=] & _).
Qed.

(** X3. [canShowOnlyRequiredFields] depends on the settings only through
    [advancedMode] and the [enabled] flags: settings that agree on these
    give the same answer, whatever their titles, descriptions and
    broadcast ids. *)
Theorem canShowOnlyRequiredFields_flags_only (settings settings' : IStreamSettings) :
  advancedMode settings = advancedMode settings' ->
  (forall p, enabled <$> destinations settings !! p
             = enabled <$> destinations settings' !! p) ->
  canShowOnlyRequiredFields settings = canShowOnlyRequiredFields settings'.
Proof.
  intros Hadvanced Hflags.
  apply eq_true_iff_eq.
  rewrite !canShowOnlyRequiredFields_flagSet, Hadvanced.
  by setoid_rewrite (flagSet_ext settings settings' Hflags).
Qed.

(** Renaming the stream does not change what the editors show. *)
Lemma canShowOnlyRequiredFields_flags_only_witness :
  canShowOnlyRequiredFields Examples.twoPlatforms
  = canShowOnlyRequiredFields
      {| destinations :=
           <[twitch := Examples.twitchDestination]>
             (<[youtube := Examples.staleDestination]> ∅);
         advancedMode := false |}.
Proof.
  apply canShowOnlyRequiredFields_flags_only; [reflexivity|].
  intros []; reflexivity.
Defined.

End BaseEditStreamInfoSpec.

(** ** The youtube stream-info editor *)

Module YoutubeEditStreamInfoSpec.
Import Platforms Streaming BaseEditStreamInfo YoutubeEditStreamInfo.

(** The callback that [onSelectBroadcastHandler] gives to [find]. *)
Local Abbreviation sameId ytSettings :=
  (fun broadcast : Youtube.IYoutubeLiveBroadcast =>
     selected ← Completion.member ytSettings broadcastId;
     mret (bool_decide (Youtube.id broadcast = selected))).

(** With a youtube destination the lookup does not throw, and it stops
    at the first broadcast with the selected id. *)
Lemma find_first yt (array : list Youtube.IYoutubeLiveBroadcast) :
  (find_ (sameId (Some yt)) array = Normal None
   /\ forall b, b ∈ array -> Youtube.id b <> broadcastId yt)
  \/ (exists found before after,
        find_ (sameId (Some yt)) array = Normal (Some found)
        /\ array = before ++ found :: after
        /\ (forall b, b ∈ before -> Youtube.id b <> broadcastId yt)
        /\ Youtube.id found = broadcastId yt).
Proof.
  induction array as [|x rest IH]; simpl.
  - left. split; [done|]. intros b Hb. by apply elem_of_nil in Hb.
  - destruct (decide (Youtube.id x = broadcastId yt)) as [Heq|Hne].
    + right. exists x, [], rest.
      rewrite bool_decide_eq_true_2 by done.
      split; [done|]. split; [done|]. split; [|done].
      intros b Hb. by apply elem_of_nil in Hb.
    + rewrite bool_decide_eq_false_2 by done.
      destruct IH as [[Hnone Hall]|(found & before & after & Hf & -> & Hb & Hid)].
      * left. split; [done|]. intros b [->|Hb]%elem_of_cons; auto.
      * right. exists found, (x :: before), after.
        split; [done|]. split; [done|]. split; [|done].
        intros b [->|Hin]%elem_of_cons; auto.
Qed.

(** Without a youtube destination the callback throws on the first
    broadcast it is given. *)
Lemma find_absent (array : list Youtube.IYoutubeLiveBroadcast) :
  find_ (sameId None) array
  = match array with [] => Normal None | _ => Throw TypeError end.
Proof. destruct array; reflexivity. Qed.

(** Two broadcasts of a list with pairwise different ids are the same
    when their ids are. *)
Lemma unique_id (array : list Youtube.IYoutubeLiveBroadcast) b1 b2 :
  NoDup (Youtube.id <$> array) -> b1 ∈ array -> b2 ∈ array ->
  Youtube.id b1 = Youtube.id b2 -> b1 = b2.
Proof.
  induction array as [|x rest IH]; simpl; intros Hnd H1 H2 Heq.
  - by apply elem_of_nil in H1.
  - apply NoDup_cons in Hnd as [Hx Hnd].
    apply elem_of_cons in H1 as [->|H1], H2 as [->|H2]; auto.
    + exfalso. apply Hx. rewrite Heq. by apply list_elem_of_fmap_2.
    + exfalso. apply Hx. rewrite <- Heq. by apply list_elem_of_fmap_2.
Qed.

(** The handler either leaves the component as it is or replaces the
    youtube destination by one that differs in title and description. *)
Lemma onSelectBroadcastHandler_cases this :
  (onSelectBroadcastHandler this).2 = this
  \/ exists yt title description,
       destinations (settings this) !! youtube = Some yt
       /\ (onSelectBroadcastHandler this).2
          = with_youtube this (set_description description (set_title title yt)).
Proof.
  unfold onSelectBroadcastHandler.
  destruct (destinations (settings this) !! youtube) as [yt|] eqn:Hyt.
  - destruct (find_first yt (broadcasts this))
      as [[-> _]|(found & before & after & -> & _)]; [by left|].
    right. by eexists _, _, _.
  - rewrite find_absent. destruct (broadcasts this); by left.
Qed.

(** C4. With the youtube destination [yt] and the selected id
    [broadcastId yt]: when no fetched broadcast has that id the handler
    returns and changes nothing; when some broadcast has it, the handler
    returns with the destination's title and description overwritten by
    the snippet of the first broadcast with that id, which is the given
    broadcast whenever the fetched ids are pairwise different. *)
Theorem onSelectBroadcastHandler_selects this yt :
  destinations (settings this) !! youtube = Some yt ->
  ((forall b, b ∈ broadcasts this -> Youtube.id b <> broadcastId yt) ->
   onSelectBroadcastHandler this = (Normal (), this))
  /\ (forall b, b ∈ broadcasts this -> Youtube.id b = broadcastId yt ->
      exists found before after this' yt',
        broadcasts this = before ++ found :: after
        /\ (forall b', b' ∈ before -> Youtube.id b' <> broadcastId yt)
        /\ Youtube.id found = broadcastId yt
        /\ (NoDup (Youtube.id <$> broadcasts this) -> found = b)
        /\ onSelectBroadcastHandler this = (Normal (), this')
        /\ destinations (settings this') !! youtube = Some yt'
        /\ title yt' = Youtube.title (Youtube.snippet found)
        /\ description yt' = Youtube.description (Youtube.snippet found)).
Proof.
  intros Hyt. unfold onSelectBroadcastHandler. rewrite Hyt.
  destruct (find_first yt (broadcasts this))
    as [[Hnone Hall]|(found & before & after & Hf & Hsplit & Hbefore & Hid)].
  - rewrite Hnone. split; [done|].
    intros b Hb Heq. by destruct (Hall b Hb).
  - rewrite Hf. split.
    + intros Hall. destruct (Hall found); [|done].
      rewrite Hsplit. set_solver.
    + intros b Hb Heq. eexists found, before, after, _, _.
      split; [done|]. split; [done|]. split; [done|]. split.
      { intros Hnd. apply (unique_id (broadcasts this)); [done| |done|congruence].
        rewrite Hsplit. set_solver. }
      split; [reflexivity|]. split; [apply lookup_insert_eq|]. done.
Qed.

(** C10. Whatever the settings and the fetched broadcasts, and however
    the call ends, the handler leaves [advancedMode], every destination
    other than youtube's, and the [broadcastId] and [enabled] flag of the
    youtube destination as they were; the rest of the component is
    untouched too. *)
Theorem onSelectBroadcastHandler_frame this :
  let this' := (onSelectBroadcastHandler this).2 in
  advancedMode (settings this') = advancedMode (settings this)
  /\ (forall p, p <> youtube ->
      destinations (settings this') !! p = destinations (settings this) !! p)
  /\ broadcastId <$> destinations (settings this') !! youtube
     = broadcastId <$> destinations (settings this) !! youtube
  /\ enabled <$> destinations (settings this') !! youtube
     = enabled <$> destinations (settings this) !! youtube
  /\ broadcasts this' = broadcasts this
  /\ broadcastsLoaded this' = broadcastsLoaded this
  /\ view this' = view this.
Proof.
  simpl.
  destruct (onSelectBroadcastHandler_cases this)
    as [->|(yt & title & description & Hyt & ->)]; [done|].
  simpl. split; [done|]. split.
  { intros p Hp. by rewrite lookup_insert_ne. }
  rewrite lookup_insert_eq, Hyt. done.
Qed.

Section Render.

Variable translate : string -> string.

Local Abbreviation render := (YoutubeEditStreamInfo.render translate).

(** C8, as amended. For every settings object for which
    [canShowOnlyRequiredFields] is true, [render] returns [false] and the
    editor shows nothing; when the flag is false and the settings have a
    youtube destination, [render] returns the form with the broadcast
    selector, bound to that destination's [broadcastId], and the common
    platform fields. Without a youtube destination the form is not
    rendered: [render] throws. *)
Theorem render_gate this :
  (canShowOnlyRequiredFields (settings this) = true ->
   render this = Normal RFalse)
  /\ (canShowOnlyRequiredFields (settings this) = false ->
      forall yt, destinations (settings this) !! youtube = Some yt ->
      render this
      = Normal (RNode
          (ValidatedForm emitInput
             [ HFormGroup (translate "Event")
                 [ BroadcastInput onSelectBroadcast (broadcastId yt)
                     {| event_broadcasts := broadcasts this;
                        loading := negb (broadcastsLoaded this);
                        disabled := isMidStreamMode (view this) |} ];
               CommonPlatformFields (settings this) youtube ]))).
Proof.
  unfold YoutubeEditStreamInfo.render. split.
  - intros ->. reflexivity.
  - intros -> yt ->. simpl. unfold formMetadata_event, canChangeBroadcast.
    by rewrite negb_involutive.
Qed.

End Render.

(** The handler on concrete editors: the selected id ["b2"] is the second
    fetched broadcast; the id ["gone"] is none of them. *)
Lemma onSelectBroadcastHandler_selects_witness :
  onSelectBroadcastHandler Examples.staleEditor = (Normal (), Examples.staleEditor)
  /\ exists this' yt',
       onSelectBroadcastHandler Examples.editor = (Normal (), this')
       /\ destinations (settings this') !! youtube = Some yt'
       /\ title yt' = "Friday show"
       /\ description yt' = "Special".
Proof.
  split.
  - apply (onSelectBroadcastHandler_selects Examples.staleEditor
             Examples.staleDestination eq_refl).
    intros b Hb. vm_compute in Hb.
    repeat (apply elem_of_cons in Hb as [->|Hb]; [discriminate|]).
    by apply elem_of_nil in Hb.
  - destruct (proj2 (onSelectBroadcastHandler_selects Examples.editor
                       Examples.youtubeDestination eq_refl)
                {| Youtube.id := "b2";
                   Youtube.snippet := {| Youtube.title := "Friday show";
                                         Youtube.description := "Special" |} |})
      as (found & before & after & this' & yt' & _ & _ & _ & Hsame & Hrun & Hyt & Ht & Hd).
    + vm_compute. set_solver.
    + reflexivity.
    + assert (Hfound : NoDup (Youtube.id <$> broadcasts Examples.editor))
        by (apply (bool_decide_unpack _); vm_compute; exact I).
      apply Hsame in Hfound. subst found. by exists this', yt'.
Defined.

(** With several fetched broadcasts of the selected id the first one is
    taken. *)
Example onSelectBroadcastHandler_first_of_two :
  let broadcast title :=
    {| Youtube.id := "b2";
       Youtube.snippet := {| Youtube.title := title; Youtube.description := "" |} |} in
  let this :=
    {| settings := Examples.youtubeOnly;
       broadcasts := [broadcast "first"; broadcast "second"];
       broadcastsLoaded := true;
       view := Examples.goingLive |} in
  title <$> destinations (settings (onSelectBroadcastHandler this).2) !! youtube
  = Some "first".
Proof. reflexivity. Qed.

(** Without a youtube destination the handler throws as soon as there
    is a broadcast to compare, and changes nothing. *)
Example onSelectBroadcastHandler_no_destination :
  let this :=
    {| settings := {| destinations := ∅; advancedMode := false |};
       broadcasts := Examples.fetched;
       broadcastsLoaded := true;
       view := Examples.goingLive |} in
  onSelectBroadcastHandler this = (Throw TypeError, this).
Proof. reflexivity. Qed.

(** The editor for youtube alone shows its form; with twitch enabled
    too (and advanced mode off) it shows nothing. *)
Lemma render_gate_witness :
  render (fun key => key) (Examples.editorOf Examples.twoPlatforms) = Normal RFalse
  /\ render (fun key => key) Examples.editor
     = Normal (RNode
         (ValidatedForm emitInput
            [ HFormGroup "Event"
                [ BroadcastInput onSelectBroadcast "b2"
                    {| event_broadcasts := Examples.fetched;
                       loading := false;
                       disabled := false |} ];
              CommonPlatformFields Examples.youtubeOnly youtube ])).
Proof.
  split.
  - apply (proj1 (render_gate (fun key => key)
                    (Examples.editorOf Examples.twoPlatforms))).
    vm_compute. reflexivity.
  - apply (proj2 (render_gate (fun key => key) Examples.editor)
             ltac:(vm_compute; reflexivity) Examples.youtubeDestination eq_refl).
Defined.

(** C8 as first stated, "when the flag is false the form is rendered"
    for every settings object, fails on settings with twitch alone: the
    flag is false, and [render] throws on reading
    [destinations.youtube.broadcastId] instead of returning a form. *)
Lemma render_gate_counterexample :
  canShowOnlyRequiredFields (settings (Examples.editorOf Examples.twitchOnly))
  = false
  /\ render (fun key => key) (Examples.editorOf Examples.twitchOnly)
     = Throw TypeError
  /\ (forall node,
        render (fun key => key) (Examples.editorOf Examples.twitchOnly)
        <> Normal (RNode node)).
Proof.
  split; [vm_compute; reflexivity|].
  assert (Hthrows : render (fun key => key) (Examples.editorOf Examples.twitchOnly)
                    = Throw TypeError) by (vm_compute; reflexivity).
  split; [exact Hthrows|].
  intros node. rewrite Hthrows. discriminate.
Qed.

(** Without the youtube destination the editor cannot build its form. *)
Example render_no_destination :
  render (fun key => key)
    (Examples.editorOf {| destinations := ∅; advancedMode := false |})
  = Throw TypeError.
Proof. reflexivity. Qed.

(** [find] with two callbacks that answer alike finds the same. *)
Lemma find_ext {A} (f g : A -> Completion.t bool) (array : list A) :
  (forall x, f x = g x) -> find_ f array = find_ g array.
Proof.
  intros Hfg. induction array as [|x rest IH]; [reflexivity|].
  cbn [find_]. by rewrite Hfg, IH.
Qed.

(** The lookup compares with the selected id only. *)
Lemma find_same_id yt yt' (array : list Youtube.IYoutubeLiveBroadcast) :
  broadcastId yt' = broadcastId yt ->
  find_ (sameId (Some yt')) array = find_ (sameId (Some yt)) array.
Proof.
  intros Hid. apply find_ext. intros x. simpl. by rewrite Hid.
Qed.

(** Writing the same title and description again changes nothing. *)
Lemma with_youtube_again this yt title description title0 description0 :
  with_youtube
    (with_youtube this (set_description description0 (set_title title0 yt)))
    (set_description description
       (set_title title (set_description description0 (set_title title0 yt))))
  = with_youtube this (set_description description (set_title title yt)).
Proof.
  unfold with_youtube. simpl. by rewrite insert_insert_eq.
Qed.

(** The handler in full, by the youtube destination and the lookup. *)
Lemma onSelectBroadcastHandler_eq this :
  match destinations (settings this) !! youtube with
  | None =>
      onSelectBroadcastHandler this
      = (match broadcasts this with [] => Normal () | _ => Throw TypeError end, this)
  | Some yt =>
      (find_ (sameId (Some yt)) (broadcasts this) = Normal None
       /\ onSelectBroadcastHandler this = (Normal (), this))
      \/ (exists found,
            find_ (sameId (Some yt)) (broadcasts this) = Normal (Some found)
            /\ onSelectBroadcastHandler this
               = (Normal (),
                  with_youtube this
                    (set_description (Youtube.description (Youtube.snippet found))
                       (set_title (Youtube.title (Youtube.snippet found)) yt))))
  end.
Proof.
  unfold onSelectBroadcastHandler.
  destruct (destinations (settings this) !! youtube) as [yt|] eqn:Hyt.
  - destruct (find_first yt (broadcasts this))
      as [[Hnone _]|(found & before & after & Hf & _)].
    + left. by rewrite Hnone.
    + right. exists found. by rewrite Hf.
  - rewrite find_absent. by destruct (broadcasts this).
Qed.

(** The handler on a component whose youtube destination has just been
    written. *)
Lemma onSelectBroadcastHandler_with_youtube this d :
  (find_ (sameId (Some d)) (broadcasts this) = Normal None
   /\ onSelectBroadcastHandler (with_youtube this d)
      = (Normal (), with_youtube this d))
  \/ (exists found,
        find_ (sameId (Some d)) (broadcasts this) = Normal (Some found)
        /\ onSelectBroadcastHandler (with_youtube this d)
           = (Normal (),
              with_youtube (with_youtube this d)
                (set_description (Youtube.description (Youtube.snippet found))
                   (set_title (Youtube.title (Youtube.snippet found)) d)))).
Proof.
  pose proof (onSelectBroadcastHandler_eq (with_youtube this d)) as Heq.
  change (destinations (settings (with_youtube this d)))
    with (<[youtube := d]> (destinations (settings this))) in Heq.
  change (broadcasts (with_youtube this d)) with (broadcasts this) in Heq.
  by rewrite lookup_insert_eq in Heq.
Qed.

(** X4. The handler throws exactly when the settings have no youtube
    destination and at least one broadcast has been fetched; with a
    youtube destination, or with an empty broadcast list, it returns
    normally. A throwing call leaves the component untouched. *)
Theorem onSelectBroadcastHandler_throws this :
  ((onSelectBroadcastHandler this).1 = Throw TypeError
   <-> destinations (settings this) !! youtube = None /\ broadcasts this <> [])
  /\ ((onSelectBroadcastHandler this).1 = Normal ()
      <-> is_Some (destinations (settings this) !! youtube) \/ broadcasts this = [])
  /\ ((onSelectBroadcastHandler this).1 = Throw TypeError ->
      (onSelectBroadcastHandler this).2 = this).
Proof.
  pose proof (onSelectBroadcastHandler_eq this) as Heq.
  destruct (destinations (settings this) !! youtube) as [yt|].
  - assert (Hnormal : (onSelectBroadcastHandler this).1 = Normal ()).
    { destruct Heq as [[_ ->]|(found & _ & ->)]; reflexivity. }
    rewrite Hnormal. split; [|split].
    + split; [done|]. by intros [? _].
    + split; [|done]. intros _. left. by eexists.
    + done.
  - rewrite Heq. destruct (broadcasts this); simpl.
    + split; [|split].
      * split; [done|]. by intros [_ ?].
      * split; [|done]. intros _. by right.
      * done.
    + split; [|split].
      * split; [|done]. by intros _.
      * split; [done|]. intros [[? [=]]|[=]].
      * done.
Qed.

(** X5. The handler is idempotent: running it again on the component it
    left gives the same completion and the same component, since the
    selected id is not changed by the first run. *)
Theorem onSelectBroadcastHandler_idempotent this :
  onSelectBroadcastHandler (onSelectBroadcastHandler this).2
  = onSelectBroadcastHandler this.
Proof.
  pose proof (onSelectBroadcastHandler_eq this) as Heq.
  destruct (destinations (settings this) !! youtube) as [yt|] eqn:Hyt.
  - destruct Heq as [[_ Heq]|(found & Hfound & Heq)]; rewrite Heq;
      cbn [snd]; [exact Heq|].
    pose proof (onSelectBroadcastHandler_with_youtube this
                  (set_description (Youtube.description (Youtube.snippet found))
                     (set_title (Youtube.title (Youtube.snippet found)) yt)))
      as Hagain.
    rewrite (find_same_id yt) in Hagain by reflexivity.
    destruct Hagain as [[Hnone _]|(found' & Hfound' & ->)]; [congruence|].
    assert (found' = found) as -> by congruence.
    by rewrite with_youtube_again.
  - rewrite Heq. simpl. unfold onSelectBroadcastHandler. rewrite Hyt, find_absent.
    by destruct (broadcasts this).
Qed.

(** X6. The overwrite is destructive: when a fetched broadcast has the
    selected id, the component the handler leaves does not depend on the
    title and description the youtube destination had before. *)
Theorem onSelectBroadcastHandler_overwrites this yt title0 description0 b :
  destinations (settings this) !! youtube = Some yt ->
  b ∈ broadcasts this ->
  Youtube.id b = broadcastId yt ->
  onSelectBroadcastHandler
    (with_youtube this (set_description description0 (set_title title0 yt)))
  = onSelectBroadcastHandler this.
Proof.
  intros Hyt Hb Hid.
  pose proof (onSelectBroadcastHandler_eq this) as Heq. rewrite Hyt in Heq.
  pose proof (onSelectBroadcastHandler_with_youtube this
                (set_description description0 (set_title title0 yt))) as Heq0.
  rewrite (find_same_id yt) in Heq0 by reflexivity.
  destruct (find_first yt (broadcasts this))
    as [[_ Hall]|(found & before & after & Hf & _)]; [by destruct (Hall b Hb)|].
  destruct Heq as [[Hnone _]|(found1 & Hf1 & ->)]; [congruence|].
  destruct Heq0 as [[Hnone _]|(found0 & Hf0 & ->)]; [congruence|].
  assert (found1 = found) as -> by congruence.
  assert (found0 = found) as -> by congruence.
  by rewrite with_youtube_again.
Qed.

(** With the second fetched broadcast selected, the old title and
    description do not matter. *)
Lemma onSelectBroadcastHandler_overwrites_witness :
  onSelectBroadcastHandler
    (with_youtube Examples.editor
       (set_description "draft" (set_title "Untitled" Examples.youtubeDestination)))
  = onSelectBroadcastHandler Examples.editor.
Proof.
  apply (onSelectBroadcastHandler_overwrites Examples.editor
           Examples.youtubeDestination "Untitled" "draft"
           {| Youtube.id := "b2";
              Youtube.snippet := {| Youtube.title := "Friday show";
                                    Youtube.description := "Special" |} |});
    [reflexivity| |reflexivity].
  vm_compute. set_solver.
Defined.

(** X9. A component as constructed shows the selector loading with no
    broadcasts, and the handler on it returns without a change even when
    the settings have no youtube destination. After [created], the
    selector stops loading exactly when the fetch resolved, and then
    offers the fetched broadcasts; a rejected fetch leaves the component
    as constructed. The settings are not touched by [created]. *)
Theorem created_loading settings0 view0 fetchBroadcasts :
  let this := constructed settings0 view0 in
  loading (formMetadata_event this) = true
  /\ event_broadcasts (formMetadata_event this) = []
  /\ onSelectBroadcastHandler this = (Normal (), this)
  /\ (loading (formMetadata_event (created fetchBroadcasts this)) = false
      <-> is_Some fetchBroadcasts)
  /\ (fetchBroadcasts = None -> created fetchBroadcasts this = this)
  /\ (forall fetched, fetchBroadcasts = Some fetched ->
      event_broadcasts (formMetadata_event (created fetchBroadcasts this)) = fetched)
  /\ settings (created fetchBroadcasts this) = settings0.
Proof.
  simpl. split; [done|]. split; [done|]. split.
  { pose proof (onSelectBroadcastHandler_eq (constructed settings0 view0)) as Heq.
    simpl in Heq.
    destruct (destinations settings0 !! youtube); [|done].
    by destruct Heq as [[_ ->]|(found & [=] & _)]. }
  destruct fetchBroadcasts as [fetched|]; simpl.
  - split; [by eauto|]. split; [done|]. split; [by intros ? [= ->]|done].
  - split; [|done]. split; [done|]. by intros [? [=]].
Qed.

Section RenderOutcome.

Variable translate : string -> string.

Local Abbreviation render := (YoutubeEditStreamInfo.render translate).

(** X8. [render] has three outcomes: it returns [false] exactly when
    [canShowOnlyRequiredFields] is true, it throws exactly when that flag
    is false and the settings have no youtube destination, and it returns
    a form exactly when the flag is false and the destination exists. *)
Theorem render_outcomes this :
  (render this = Normal RFalse
   <-> canShowOnlyRequiredFields (settings this) = true)
  /\ (render this = Throw TypeError
      <-> canShowOnlyRequiredFields (settings this) = false
          /\ destinations (settings this) !! youtube = None)
  /\ ((exists node, render this = Normal (RNode node))
      <-> canShowOnlyRequiredFields (settings this) = false
          /\ is_Some (destinations (settings this) !! youtube)).
Proof.
  unfold YoutubeEditStreamInfo.render.
  destruct (canShowOnlyRequiredFields (settings this));
    destruct (destinations (settings this) !! youtube) as [yt|]; simpl.
  all: split; [|split]; split; try done; try by intros [? ?].
  all: try by intros [? [=]].
  all: try by intros [_ [? [=]]].
  all: try by eauto.
Qed.

(** X7. Selecting a broadcast does not change what the editor shows:
    [canShowOnlyRequiredFields] is the same after the handler, and
    [render] ends the same way, with the same broadcast selector; only
    the settings handed to the common platform fields are the updated
    ones. *)
Theorem render_after_select this :
  let this' := (onSelectBroadcastHandler this).2 in
  canShowOnlyRequiredFields (settings this')
  = canShowOnlyRequiredFields (settings this)
  /\ render this'
     = match render this with
       | Normal (RNode (ValidatedForm onInput [group; CommonPlatformFields _ platform])) =>
           Normal (RNode (ValidatedForm onInput
                            [group; CommonPlatformFields (settings this') platform]))
       | outcome => outcome
       end.
Proof.
  simpl.
  destruct (onSelectBroadcastHandler_cases this)
    as [->|(yt & title & description & Hyt & ->)].
  - split; [done|]. unfold YoutubeEditStreamInfo.render.
    destruct (canShowOnlyRequiredFields (settings this)); [done|].
    by destruct (destinations (settings this) !! youtube).
  - assert (Hshow :
      canShowOnlyRequiredFields
        (settings (with_youtube this (set_description description (set_title title yt))))
      = canShowOnlyRequiredFields (settings this)).
    { apply eq_true_iff_eq.
      rewrite !BaseEditStreamInfoSpec.canShowOnlyRequiredFields_flagSet.
      simpl.
      assert (Hset : forall p,
                flagSet (settings (with_youtube this
                                     (set_description description (set_title title yt)))) p
                <-> flagSet (settings this) p).
      { apply BaseEditStreamInfoSpec.flagSet_ext. intros p. simpl.
        destruct (decide (p = youtube)) as [->|Hp].
        - by rewrite lookup_insert_eq, Hyt.
        - by rewrite lookup_insert_ne. }
      by setoid_rewrite Hset. }
    split; [exact Hshow|].
    unfold YoutubeEditStreamInfo.render. rewrite Hshow.
    destruct (canShowOnlyRequiredFields (settings this)); [done|].
    simpl. by rewrite lookup_insert_eq, Hyt.
Qed.

End RenderOutcome.

End YoutubeEditStreamInfoSpec.

(** ** The go-live checklist *)

Module GoLiveChecklistSpec.
Import Platforms Streaming Jsx GoLiveChecklist.

Lemma mergeText_elements (children : list Child) :
  Forall (fun c => match c with Text _ => False | _ => True end) children ->
  mergeText "" children = children.
Proof.
  induction 1 as [|c rest Hc _ IH]; [reflexivity|].
  destruct c; simpl; rewrite ?IH; done.
Qed.

(** The check mark of each status shows exactly one icon, the one of
    the documented table, inside a [span] carrying the [check] class and
    the class of the status. *)
Lemma CheckMark_render_icon (state : TGoLiveChecklistItemState) :
  classesByTagName "i" (CheckMark_render state) = [[Css (Documented.icon state)]]
  /\ classesByTagName "span" (CheckMark_render state)
     = [[Styles "check"; Styles (stateKey state)]].
Proof. destruct state; split; reflexivity. Qed.

Section Render.

Variables TwitchService_instance YoutubeService_instance
          MixerService_instance FacebookService_instance : IPlatformService.
Variable translate : string -> list (string * string) -> string.

Local Abbreviation getHeaderText := (GoLiveChecklist.getHeaderText translate).
Local Abbreviation instanceOf :=
  (Platforms.instanceOf TwitchService_instance YoutubeService_instance
     MixerService_instance FacebookService_instance).
Local Abbreviation platformUpdateItem :=
  (GoLiveChecklist.platformUpdateItem TwitchService_instance
     YoutubeService_instance MixerService_instance FacebookService_instance
     translate).
Local Abbreviation checklistChildren :=
  (GoLiveChecklist.checklistChildren TwitchService_instance
     YoutubeService_instance MixerService_instance FacebookService_instance
     translate).
Local Abbreviation restreamItem := (GoLiveChecklist.restreamItem translate).
Local Abbreviation optimizedProfileItem :=
  (GoLiveChecklist.optimizedProfileItem translate).
Local Abbreviation startTransmissionItem :=
  (GoLiveChecklist.startTransmissionItem translate).
Local Abbreviation publishYTItem := (GoLiveChecklist.publishYTItem translate).
Local Abbreviation postTweetItem := (GoLiveChecklist.postTweetItem translate).

(** The "update settings" item of a platform. *)
Local Abbreviation updateItem this platform :=
  (renderCheck this
     (translate "Update settings for %{platform}"
        [("platform", displayName (instanceOf platform))])
     (platformItem (checklist (info (view this))) platform)
     false).

(** C1. The header follows the precedence error, then live, then
    working: with an error it is "Something went wrong" whatever the
    lifecycle; without one it is "You're live!" when the lifecycle is
    ['live'] and "Working on your live stream" otherwise. *)
Theorem getHeaderText_precedence this :
  (is_Some (error this) ->
   getHeaderText this = translate "Something went wrong" [])
  /\ (error this = None -> lifecycle (info (view this)) = "live" ->
      getHeaderText this = translate "You're live!" [])
  /\ (error this = None -> lifecycle (info (view this)) <> "live" ->
      getHeaderText this = translate "Working on your live stream" []).
Proof.
  unfold GoLiveChecklist.getHeaderText. split; [|split].
  - intros [e ->]. reflexivity.
  - intros -> Hlive. by rewrite bool_decide_eq_true_2.
  - intros -> Hother. by rewrite bool_decide_eq_false_2.
Qed.

(** What Vue keeps of a stage: one [li], keyed by the title, with the
    documented class of the status. *)
Lemma normalize_renderCheck this title state flag :
  exists children,
    normalize (renderCheck this title state flag)
    = [Element "li" (Some title) (Documented.itemClass state) children].
Proof. destruct state; eexists; reflexivity. Qed.



(** C2. For each of the four statuses the stage shows the icon of the
    documented table (circle, spinning spinner, check mark, cross) and
    its list item the documented class (the not-started class, none,
    none, the error class); a [done] stage has neither the not-started
    nor the error class. *)
Theorem renderCheck_mapping this title state flag :
  classOf (renderCheck this title state flag) = Documented.itemClass state
  /\ classesByTagName "i" (renderCheck this title state flag)
     = [[Css (Documented.icon state)]]
  /\ classesByTagName "span" (CheckMark_render state)
     = [[Styles "check"; Styles (stateKey state)]]
  /\ (exists children,
        normalize (renderCheck this title state flag)
        = [Element "li" (Some title) (Documented.itemClass state) children])
  /\ (Styles "notStarted" ∉ classOf (renderCheck this title done flag))
  /\ (Styles "itemError" ∉ classOf (renderCheck this title done flag)).
Proof.
  split; [by destruct state|]. split.
  { unfold renderCheck, renderYoutubePercentage.
    destruct state, flag; simpl; try reflexivity; by case_bool_decide. }
  split; [apply CheckMark_render_icon|].
  split; [apply normalize_renderCheck|].
  split; simpl; apply not_elem_of_nil.
Qed.




(** The platform items never throw: [getPlatformService] answers for
    every platform. *)
Lemma platformUpdateItem_total this platform :
  platformUpdateItem this platform = Normal (updateItem this platform).
Proof.
  unfold GoLiveChecklist.platformUpdateItem, getPlatformDisplayName.
  by rewrite PlatformsSpec.getPlatformService_lookup.
Qed.

Lemma checklistChildren_total this :
  checklistChildren this
  = Normal [ Array ((fun platform => updateItem this platform)
                      <$> enabledPlatforms (view this));
             restreamItem this;
             optimizedProfileItem this;
             startTransmissionItem this;
             publishYTItem this;
             postTweetItem this ].
Proof.
  unfold GoLiveChecklist.checklistChildren.
  by rewrite (CompletionFacts.mapM_total _ _ _ (platformUpdateItem_total this)).
Qed.

(** The kept platform items: one [li] per enabled platform. *)
Lemma normalize_updateItems this (platforms : list TPlatform) :
  flat_map normalize ((fun platform => updateItem this platform) <$> platforms)
  = flat_map (fun platform => normalize (updateItem this platform)) platforms
  /\ length (flat_map (fun platform => normalize (updateItem this platform)) platforms)
     = length platforms
  /\ Forall (fun c => match c with Text _ => False | _ => True end)
       (flat_map (fun platform => normalize (updateItem this platform)) platforms).
Proof.
  induction platforms as [|p rest (IH1 & IH2 & IH3)]; [done|].
  cbn [fmap list_fmap flat_map] in *. rewrite IH1.
  destruct (normalize_renderCheck this
              (translate "Update settings for %{platform}"
                 [("platform", displayName (instanceOf p))])
              (platformItem (checklist (info (view this))) p) false)
    as [children ->].
  split; [done|]. cbn [app length]. split; [by f_equal|].
  by constructor.
Qed.



(** The literal [0.42] is the correctly rounded quotient of 42 by 100,
    and a hundred times it is the double 42. *)
Lemma progress42_percent :
  Documented.progress42 = (PrimFloat.of_uint63 42 / PrimFloat.of_uint63 100)%float
  /\ (Documented.progress42 * 100)%float = 42%float
  /\ JsNumber.toString (Documented.progress42 * 100) = "42".
Proof. repeat split; vm_compute; reflexivity. Qed.

(** The percentage is the only [span] of a stage whose class is just
    [pending]; it is there exactly when the stage asks for it and the
    publish status is not ['not-started']. *)
Lemma renderCheck_percentage this title state flag :
  [Styles "pending"] ∈ classesByTagName "span" (renderCheck this title state flag)
  <-> flag = true
      /\ publishYoutubeBroadcast (checklist (info (view this))) <> not_started.
Proof.
  assert (Hspans :
    classesByTagName "span" (renderCheck this title state flag)
    = [Styles "check"; Styles (stateKey state)]
      :: classesByTagName "span" (and_ (Bool flag) (renderYoutubePercentage this))).
  { destruct state; cbn; rewrite !app_nil_r; reflexivity. }
  rewrite Hspans, elem_of_cons. unfold renderYoutubePercentage.
  destruct flag; cbn [and_ truthy].
  - destruct (decide (publishYoutubeBroadcast (checklist (info (view this)))
                      = not_started)) as [Heq|Hne].
    + rewrite bool_decide_eq_true_2 by done.
      change (classesByTagName _ (Text _)) with (@nil (list Class)).
      rewrite elem_of_nil. split; [intros [[=]|[]]|by intros [_ ?]].
    + rewrite bool_decide_eq_false_2 by done.
      change (classesByTagName _ (Element _ _ _ _)) with [[Styles "pending"]].
      split; [done|]. intros _. right. by left.
  - change (classesByTagName _ (Bool _)) with (@nil (list Class)).
    rewrite elem_of_nil. split; [intros [[=]|[]]|intros [[=] _]].
Qed.

(** C6. The percentage of the youtube publish stage is rendered exactly
    when the status of [publishYoutubeBroadcast] is not ['not-started']:
    [renderYoutubePercentage] then gives a [span] with the text of a
    hundred times the progress followed by the percent sign, and the
    empty string otherwise; the publish stage, built with
    [renderYTPercentage = true], holds that [span] under the same
    condition. For the progress [0.42] the text shows [42%]. *)
Theorem renderYoutubePercentage_shown this :
  (renders (renderYoutubePercentage this) = true
   <-> publishYoutubeBroadcast (checklist (info (view this))) <> not_started)
  /\ (forall title state,
        [Styles "pending"] ∈ classesByTagName "span" (renderCheck this title state true)
        <-> publishYoutubeBroadcast (checklist (info (view this))) <> not_started)
  /\ (publishYoutubeBroadcast (checklist (info (view this))) <> not_started ->
      normalize (renderYoutubePercentage this)
      = [Element "span" None [Styles "pending"]
           [Text (" " +:+ JsNumber.toString (progress this * 100) +:+ "%")]])
  /\ (publishYoutubeBroadcast (checklist (info (view this))) <> not_started ->
      progress this = Documented.progress42 ->
      normalize (renderYoutubePercentage this)
      = [Element "span" None [Styles "pending"] [Text " 42%"]]).
Proof.
  assert (Hshown :
    publishYoutubeBroadcast (checklist (info (view this))) <> not_started ->
    normalize (renderYoutubePercentage this)
    = [Element "span" None [Styles "pending"]
         [Text (" " +:+ JsNumber.toString (progress this * 100) +:+ "%")]]).
  { intros Hstate. unfold renderYoutubePercentage.
    rewrite bool_decide_eq_false_2 by done. reflexivity. }
  split; [|split; [|split; [exact Hshown|]]].
  - unfold renders, normalizeChildren. cbn [flat_map].
    destruct (decide (publishYoutubeBroadcast (checklist (info (view this)))
                      = not_started)) as [Heq|Hne].
    + unfold renderYoutubePercentage. rewrite bool_decide_eq_true_2 by done.
      simpl. split; [done|]. intros H. by destruct H.
    + rewrite (Hshown Hne). split; [by intros _|reflexivity].
  - intros title state. rewrite renderCheck_percentage. split; [by intros [_ ?]|done].
  - intros Hstate Hprogress. rewrite (Hshown Hstate), Hprogress.
    by destruct progress42_percent as (_ & _ & ->).
Qed.

(** *** The whole list *)

(** Each conditional child is its stage when its gate holds, and
    [false] or [undefined] otherwise. *)
Local Abbreviation gated gate item stage :=
  (if gate : bool then item = stage else item = Bool false \/ item = Undefined).

Lemma restreamItem_gated this :
  gated (Gates.restream this) (restreamItem this)
    (renderCheck this (translate "Configure the Restream service" [])
       (setupRestream (checklist (info (view this)))) false).
Proof.
  unfold Gates.restream, GoLiveChecklist.restreamItem.
  destruct (isUpdateMode this), (isMutliplatformMode (view this)); cbn; auto.
Qed.

Lemma optimizedProfileItem_gated this :
  gated (Gates.optimizedProfile this) (optimizedProfileItem this)
    (renderCheck this (translate "Apply optimized settings" [])
       (applyOptimizedSettings (checklist (info (view this)))) false).
Proof.
  unfold Gates.optimizedProfile, GoLiveChecklist.optimizedProfileItem,
    shouldShowOptimizedProfile.
  destruct (isUpdateMode this), (useOptimizedProfile this); cbn; auto.
Qed.

Lemma startTransmissionItem_gated this :
  gated (Gates.startTransmission this) (startTransmissionItem this)
    (renderCheck this (translate "Start video transmission" [])
       (startVideoTransmission (checklist (info (view this)))) false).
Proof.
  unfold Gates.startTransmission, GoLiveChecklist.startTransmissionItem.
  destruct (isUpdateMode this); cbn; auto.
Qed.

Lemma publishYTItem_gated this :
  gated (Gates.publishYT this) (publishYTItem this)
    (renderCheck this (translate "Publish Youtube broadcast" [])
       (publishYoutubeBroadcast (checklist (info (view this)))) true).
Proof.
  unfold Gates.publishYT, GoLiveChecklist.publishYTItem, shouldPublishYT.
  destruct (isUpdateMode this); cbn; [auto|].
  destruct (destinations (goLiveSettings (view this)) !! youtube) as [yt|];
    cbn; [|auto].
  destruct (enabled yt); cbn; auto.
Qed.

Lemma postTweetItem_gated this :
  gated (Gates.postTweet this) (postTweetItem this)
    (renderCheck this (translate "Post a tweet" [])
       (postTweet (checklist (info (view this)))) false).
Proof.
  unfold Gates.postTweet, GoLiveChecklist.postTweetItem, shouldPostTweet.
  destruct (tweetWhenGoingLive this); cbn; auto.
Qed.

(** What Vue keeps of a conditional child, and the elements in it. *)
Lemma normalize_gated (gate : bool) (item stage : Child) :
  gated gate item stage ->
  normalize item = (if gate then normalize stage else [])
  /\ forall tag, classesByTagName tag item
                 = if gate then classesByTagName tag stage else [].
Proof.
  destruct gate; [by intros ->|]. by intros [-> | ->].
Qed.

Lemma renderCheck_icon this title state flag :
  classesByTagName "i" (renderCheck this title state flag)
  = [[Css (Documented.icon state)]].
Proof.
  unfold renderCheck, renderYoutubePercentage.
  destruct state, flag; simpl; try reflexivity; by case_bool_decide.
Qed.

(** A stage without the percentage does not depend on the component. *)
Lemma renderCheck_plain this this' title state :
  renderCheck this title state false = renderCheck this' title state false.
Proof. reflexivity. Qed.

(** What Vue keeps of the list: the platform items, then the kept ones of
    the five conditional stages, in the order of the source. *)
Lemma normalizeChildren_checklist this :
  normalizeChildren
    [ Array ((fun platform => updateItem this platform)
               <$> enabledPlatforms (view this));
      restreamItem this; optimizedProfileItem this;
      startTransmissionItem this; publishYTItem this; postTweetItem this ]
  = flat_map (fun platform => normalize (updateItem this platform))
             (enabledPlatforms (view this))
    ++ normalize (restreamItem this)
    ++ normalize (optimizedProfileItem this)
    ++ normalize (startTransmissionItem this)
    ++ normalize (publishYTItem this)
    ++ normalize (postTweetItem this).
Proof.
  destruct (normalize_updateItems this (enabledPlatforms (view this)))
    as (Hitems & _ & Htext).
  unfold normalizeChildren. cbn [flat_map normalize].
  rewrite Hitems, app_nil_r.
  apply mergeText_elements.
  destruct (normalize_gated _ _ _ (restreamItem_gated this)) as [-> _].
  destruct (normalize_gated _ _ _ (optimizedProfileItem_gated this)) as [-> _].
  destruct (normalize_gated _ _ _ (startTransmissionItem_gated this)) as [-> _].
  destruct (normalize_gated _ _ _ (publishYTItem_gated this)) as [-> _].
  destruct (normalize_gated _ _ _ (postTweetItem_gated this)) as [-> _].
  repeat (apply Forall_app; split); try exact Htext.
  all: match goal with
       | |- Forall _ (if ?g then normalize (renderCheck ?c ?t ?st ?f) else []) =>
           destruct g; [|constructor];
           destruct (normalize_renderCheck c t st f) as [children ->];
           by repeat constructor
       end.
Qed.

(** The length of what a conditional stage leaves. *)
Lemma length_normalize_gated (gate : bool) (item : Child) this title state flag :
  gated gate item (renderCheck this title state flag) ->
  length (normalize item) = Nat.b2n gate.
Proof.
  intros Hgated. destruct (normalize_gated _ _ _ Hgated) as [-> _].
  destruct gate; [|reflexivity].
  by destruct (normalize_renderCheck this title state flag) as [children ->].
Qed.

(** X10. [render] never throws, whatever platforms the view lists (none,
    some, the same one twice): every platform has a service to take the
    display name from. It returns the container with the header text,
    the list, and the error component. *)
Theorem render_never_throws this :
  (forall platform,
     getPlatformDisplayName TwitchService_instance YoutubeService_instance
       MixerService_instance FacebookService_instance platform
     = Normal (displayName (instanceOf platform)))
  /\ exists items,
       checklistChildren this = Normal items
       /\ length items = 6
       /\ GoLiveChecklist.render TwitchService_instance YoutubeService_instance
            MixerService_instance FacebookService_instance translate this
          = Normal (Element "div" None [Styles "container"]
                      [ Element "h1" None [] [Text (getHeaderText this)];
                        Element "ul" None [Styles "checklist"] items;
                        ComponentNode "GoLiveError" ]).
Proof.
  split.
  - intros platform. unfold getPlatformDisplayName.
    by rewrite PlatformsSpec.getPlatformService_lookup.
  - eexists. split; [apply checklistChildren_total|]. split; [reflexivity|].
    unfold GoLiveChecklist.render. by rewrite checklistChildren_total.
Qed.



(** *** Elements of the whole tree *)

Lemma flat_map_fmap {A B C} (f : B -> list C) (g : A -> B) (l : list A) :
  flat_map f (g <$> l) = flat_map (fun x => f (g x)) l.
Proof.
  induction l as [|x l IH]; [reflexivity|].
  rewrite fmap_cons. cbn [flat_map]. by rewrite IH.
Qed.

(** The elements of a tag other than the container's, the header's and
    the list's are those of the list's children. *)
Lemma classesByTagName_tree (tag header : string) (items : list Child) :
  tag <> "div" -> tag <> "h1" -> tag <> "ul" ->
  classesByTagName tag
    (Element "div" None [Styles "container"]
       [ Element "h1" None [] [Text header];
         Element "ul" None [Styles "checklist"] items;
         ComponentNode "GoLiveError" ])
  = flat_map (classesByTagName tag) items.
Proof.
  intros Hdiv Hh1 Hul. cbn [classesByTagName flat_map].
  rewrite !bool_decide_eq_false_2 by done.
  by rewrite !app_nil_r.
Qed.

Lemma classesByTagName_checklist this (tag : string) :
  flat_map (classesByTagName tag)
    [ Array ((fun platform => updateItem this platform)
               <$> enabledPlatforms (view this));
      restreamItem this; optimizedProfileItem this;
      startTransmissionItem this; publishYTItem this; postTweetItem this ]
  = flat_map (fun platform => classesByTagName tag (updateItem this platform))
             (enabledPlatforms (view this))
    ++ (if Gates.restream this
        then classesByTagName tag (renderCheck this
               (translate "Configure the Restream service" [])
               (setupRestream (checklist (info (view this)))) false)
        else [])
    ++ (if Gates.optimizedProfile this
        then classesByTagName tag (renderCheck this
               (translate "Apply optimized settings" [])
               (applyOptimizedSettings (checklist (info (view this)))) false)
        else [])
    ++ (if Gates.startTransmission this
        then classesByTagName tag (renderCheck this
               (translate "Start video transmission" [])
               (startVideoTransmission (checklist (info (view this)))) false)
        else [])
    ++ (if Gates.publishYT this
        then classesByTagName tag (renderCheck this
               (translate "Publish Youtube broadcast" [])
               (publishYoutubeBroadcast (checklist (info (view this)))) true)
        else [])
    ++ (if Gates.postTweet this
        then classesByTagName tag (renderCheck this
               (translate "Post a tweet" [])
               (postTweet (checklist (info (view this)))) false)
        else []).
Proof.
  cbn [flat_map classesByTagName]. rewrite flat_map_fmap, app_nil_r.
  destruct (normalize_gated _ _ _ (restreamItem_gated this)) as [_ ->].
  destruct (normalize_gated _ _ _ (optimizedProfileItem_gated this)) as [_ ->].
  destruct (normalize_gated _ _ _ (startTransmissionItem_gated this)) as [_ ->].
  destruct (normalize_gated _ _ _ (publishYTItem_gated this)) as [_ ->].
  by destruct (normalize_gated _ _ _ (postTweetItem_gated this)) as [_ ->].
Qed.

(** X13. In the whole rendered window the percentage [span] occurs
    exactly when the publish stage is shown (update mode off, youtube
    destination present and enabled) and the publish status is not
    ['not-started']; no other stage ever carries it. *)
Theorem percentage_in_render this :
  exists tree,
    GoLiveChecklist.render TwitchService_instance YoutubeService_instance
      MixerService_instance FacebookService_instance translate this
    = Normal tree
    /\ ([Styles "pending"] ∈ classesByTagName "span" tree
        <-> Gates.publishYT this = true
            /\ publishYoutubeBroadcast (checklist (info (view this))) <> not_started).
Proof.
  eexists. split.
  { unfold GoLiveChecklist.render. by rewrite checklistChildren_total. }
  rewrite classesByTagName_tree by done.
  rewrite classesByTagName_checklist.
  rewrite !elem_of_app, list_elem_of_In, in_flat_map.
  assert (Hplain : forall title state,
            ~ [Styles "pending"]
              ∈ classesByTagName "span" (renderCheck this title state false)).
  { intros title state [[=] _]%renderCheck_percentage. }
  assert (Hhidden : forall (gate : bool) title state,
            ~ [Styles "pending"]
              ∈ (if gate
                 then classesByTagName "span" (renderCheck this title state false)
                 else [])).
  { intros [] title state; [apply Hplain|apply not_elem_of_nil]. }
  split.
  - intros [(platform & _ & Hin%list_elem_of_In)|[H|[H|[H|[H|H]]]]].
    + by apply Hplain in Hin.
    + by apply Hhidden in H.
    + by apply Hhidden in H.
    + by apply Hhidden in H.
    + destruct (Gates.publishYT this); [|by apply elem_of_nil in H].
      apply renderCheck_percentage in H as [_ H]. done.
    + by apply Hhidden in H.
  - intros [-> Hstate]. do 4 right. left.
    by apply renderCheck_percentage.
Qed.

(** X14. Every stage that is shown has exactly one status icon, the
    icon of its checklist entry: the icons of the whole rendered window
    are, in order, those of the enabled platforms' entries and of the
    gated stages that are shown, and there are as many icons as stages. *)
Theorem icons_in_render this :
  exists tree items,
    GoLiveChecklist.render TwitchService_instance YoutubeService_instance
      MixerService_instance FacebookService_instance translate this
    = Normal tree
    /\ checklistChildren this = Normal items
    /\ classesByTagName "i" tree
       = ((fun platform =>
             [Css (Documented.icon
                     (platformItem (checklist (info (view this))) platform))])
            <$> enabledPlatforms (view this))
         ++ (if Gates.restream this
             then [[Css (Documented.icon (setupRestream (checklist (info (view this)))))]]
             else [])
         ++ (if Gates.optimizedProfile this
             then [[Css (Documented.icon
                           (applyOptimizedSettings (checklist (info (view this)))))]]
             else [])
         ++ (if Gates.startTransmission this
             then [[Css (Documented.icon
                           (startVideoTransmission (checklist (info (view this)))))]]
             else [])
         ++ (if Gates.publishYT this
             then [[Css (Documented.icon
                           (publishYoutubeBroadcast (checklist (info (view this)))))]]
             else [])
         ++ (if Gates.postTweet this
             then [[Css (Documented.icon (postTweet (checklist (info (view this)))))]]
             else [])
    /\ length (classesByTagName "i" tree) = length (normalizeChildren items).
Proof.
  eexists _, _. split.
  { unfold GoLiveChecklist.render. by rewrite checklistChildren_total. }
  split; [apply checklistChildren_total|].
  rewrite classesByTagName_tree by done.
  rewrite classesByTagName_checklist, !renderCheck_icon.
  assert (Hplatforms :
    flat_map (fun platform => classesByTagName "i" (updateItem this platform))
             (enabledPlatforms (view this))
    = (fun platform =>
         [Css (Documented.icon
                 (platformItem (checklist (info (view this))) platform))])
        <$> enabledPlatforms (view this)).
  { induction (enabledPlatforms (view this)) as [|p rest IH]; [reflexivity|].
    cbn [flat_map fmap list_fmap]. by rewrite renderCheck_icon, IH. }
  rewrite Hplatforms. split; [reflexivity|].
  rewrite normalizeChildren_checklist.
  destruct (normalize_updateItems this (enabledPlatforms (view this)))
    as (_ & Hlen & _).
  rewrite !length_app, Hlen, length_fmap.
  rewrite (length_normalize_gated _ _ _ _ _ _ (restreamItem_gated this)).
  rewrite (length_normalize_gated _ _ _ _ _ _ (optimizedProfileItem_gated this)).
  rewrite (length_normalize_gated _ _ _ _ _ _ (startTransmissionItem_gated this)).
  rewrite (length_normalize_gated _ _ _ _ _ _ (publishYTItem_gated this)).
  rewrite (length_normalize_gated _ _ _ _ _ _ (postTweetItem_gated this)).
  by destruct (Gates.restream this), (Gates.optimizedProfile this),
    (Gates.startTransmission this), (Gates.publishYT this), (Gates.postTweet this).
Qed.

(** A component in update mode shows a sublist of what a component
    with the same view and tweet setting shows. *)
Lemma normalizeChildren_sublist live update :
  view update = view live ->
  tweetWhenGoingLive update = tweetWhenGoingLive live ->
  isUpdateMode update = true ->
  normalizeChildren
    [ Array ((fun platform => updateItem update platform)
               <$> enabledPlatforms (view update));
      restreamItem update; optimizedProfileItem update;
      startTransmissionItem update; publishYTItem update; postTweetItem update ]
  `sublist_of`
  normalizeChildren
    [ Array ((fun platform => updateItem live platform)
               <$> enabledPlatforms (view live));
      restreamItem live; optimizedProfileItem live;
      startTransmissionItem live; publishYTItem live; postTweetItem live ].
Proof.
  intros Hview Htweet Hupdate.
  rewrite !normalizeChildren_checklist.
  destruct (normalize_gated _ _ _ (restreamItem_gated update)) as [-> _].
  destruct (normalize_gated _ _ _ (optimizedProfileItem_gated update)) as [-> _].
  destruct (normalize_gated _ _ _ (startTransmissionItem_gated update)) as [-> _].
  destruct (normalize_gated _ _ _ (publishYTItem_gated update)) as [-> _].
  destruct (normalize_gated _ _ _ (postTweetItem_gated update)) as [-> _].
  destruct (normalize_gated _ _ _ (postTweetItem_gated live)) as [-> _].
  unfold Gates.restream, Gates.optimizedProfile, Gates.startTransmission,
    Gates.publishYT, Gates.postTweet.
  rewrite Hupdate, Htweet, Hview, andb_false_r. cbn [negb andb].
  apply sublist_app; [reflexivity|].
  do 4 apply sublist_inserts_l. reflexivity.
Qed.

(** X15. Update mode only hides stages: for the same view and service
    state, what is shown in update mode is a sublist of what is shown
    outside it; no stage is added, altered or moved. *)
Theorem update_mode_only_hides view0 progress0 tweet optimized :
  let live :=
    {| view := view0; progress := progress0; tweetWhenGoingLive := tweet;
       useOptimizedProfile := optimized; isUpdateMode := false |} in
  let update :=
    {| view := view0; progress := progress0; tweetWhenGoingLive := tweet;
       useOptimizedProfile := optimized; isUpdateMode := true |} in
  exists shown shownInUpdate,
    checklistChildren live = Normal shown
    /\ checklistChildren update = Normal shownInUpdate
    /\ normalizeChildren shownInUpdate `sublist_of` normalizeChildren shown.
Proof.
  intros live update. eexists _, _.
  split; [apply checklistChildren_total|].
  split; [apply checklistChildren_total|].
  by apply normalizeChildren_sublist.
Qed.

End Render.

(** *** Whole percentages *)

Lemma normalize_renderYoutubePercentage this :
  publishYoutubeBroadcast (checklist (info (view this))) <> not_started ->
  normalize (renderYoutubePercentage this)
  = [Element "span" None [Styles "pending"]
       [Text (" " +:+ JsNumber.toString (progress this * 100) +:+ "%")]].
Proof.
  intros Hstate. unfold renderYoutubePercentage.
  by rewrite bool_decide_eq_false_2.
Qed.

(** The hundred and one whole percentages, one by one. *)
Lemma whole_percent_table :
  forallb
    (fun k =>
       Bool.eqb (bool_decide (JsNumber.toString (Documented.ofPercent k * 100)
                              = pretty k))
                (negb (bool_decide (k ∈ Documented.inexactPercents)))
       && Bool.eqb (PrimFloat.eqb (Documented.ofPercent k * 100)
                      (PrimFloat.of_uint63 (Uint63.of_Z (Z.of_nat k))))
                   (negb (bool_decide (k ∈ Documented.inexactPercents))))
    (seq 0 101)
  = true.
Proof. vm_cast_no_check (eq_refl true). Qed.

(** X16. The percentage is shown unrounded. For a progress that is a
    whole percentage [k] between 0 and 100 (the double nearest to
    [k / 100]), the text is a space, [String(progress * 100)] and the
    percent sign; the hundredfold progress is the whole number [k], and
    the text [k%], for all [k] except 7, 14, 28, 29, 55, 56, 57 and 58,
    where the product is off by one unit in the last place and the text
    has a fractional tail. *)
Theorem whole_percent_display this (k : nat) :
  k <= 100 ->
  progress this = Documented.ofPercent k ->
  publishYoutubeBroadcast (checklist (info (view this))) <> not_started ->
  normalize (renderYoutubePercentage this)
  = [Element "span" None [Styles "pending"]
       [Text (" " +:+ JsNumber.toString (Documented.ofPercent k * 100) +:+ "%")]]
  /\ (JsNumber.toString (Documented.ofPercent k * 100) = pretty k
      <-> k ∉ Documented.inexactPercents)
  /\ (PrimFloat.eqb (Documented.ofPercent k * 100)
        (PrimFloat.of_uint63 (Uint63.of_Z (Z.of_nat k))) = true
      <-> k ∉ Documented.inexactPercents).
Proof.
  intros Hk Hprogress Hstate.
  split.
  { rewrite (normalize_renderYoutubePercentage this Hstate), Hprogress.
    reflexivity. }
  pose proof (proj1 (forallb_forall _ _) whole_percent_table k) as Hcheck.
  cbv beta in Hcheck.
  apply andb_true_iff in Hcheck as [Htext Hfloat];
    [|apply list_elem_of_In, elem_of_seq; lia].
  apply Bool.eqb_prop in Htext, Hfloat. rewrite Hfloat. clear Hfloat.
  destruct (decide (k ∈ Documented.inexactPercents)) as [Hin|Hout].
  - rewrite (bool_decide_eq_true_2 _ Hin) in Htext |- *.
    apply bool_decide_eq_false in Htext.
    split; split; intros H; try contradiction; discriminate H.
  - rewrite (bool_decide_eq_false_2 _ Hout) in Htext |- *.
    apply bool_decide_eq_true in Htext.
    split; split; intros _; try assumption; reflexivity.
Qed.

(** The go-live window of the example, at 42 percent. *)
Lemma whole_percent_display_witness :
  normalize (renderYoutubePercentage Examples.goLiveWindow)
  = [Element "span" None [Styles "pending"]
       [Text (" " +:+ JsNumber.toString (Documented.ofPercent 42 * 100) +:+ "%")]]
  /\ JsNumber.toString (Documented.ofPercent 42 * 100) = pretty 42.
Proof.
  destruct (whole_percent_display Examples.goLiveWindow 42) as (Hshown & Htext & _);
    [lia|reflexivity|discriminate|].
  split; [exact Hshown|]. apply Htext.
  apply (bool_decide_unpack _). vm_compute. exact I.
Defined.

(** The three headers, in the English locale. *)
Lemma getHeaderText_precedence_witness :
  getHeaderText Examples.english (Examples.window Examples.liveWithError false)
  = "Something went wrong"
  /\ getHeaderText Examples.english (Examples.window Examples.live false)
     = "You're live!"
  /\ getHeaderText Examples.english Examples.goLiveWindow
     = "Working on your live stream".
Proof.
  split; [|split].
  - apply (proj1 (getHeaderText_precedence Examples.english
                    (Examples.window Examples.liveWithError false))).
    by eexists.
  - by apply (proj1 (proj2 (getHeaderText_precedence Examples.english
                              (Examples.window Examples.live false)))).
  - by apply (proj2 (proj2 (getHeaderText_precedence Examples.english
                              Examples.goLiveWindow))).
Defined.


(** The whole update window as Vue shows it. *)
Example render_updateWindow :
  normalizeChildren <$>
    checklistChildren Examples.twitchService Examples.youtubeService
      Examples.mixerService Examples.facebookService Examples.english
      Examples.updateWindow
  = Normal
      [ Element "li" (Some "Update settings for Twitch") []
          [ Element "span" None [Styles "check"; Styles "done"]
              [ Transition "checkboxdone"
                  [Element "i" (Some "done") [Css "fa fa-check"] []] ];
            Text "Update settings for Twitch" ];
        Element "li" (Some "Update settings for YouTube") []
          [ Element "span" None [Styles "check"; Styles "pending"]
              [ Element "i" None [Css "fa fa-spinner fa-pulse"] [];
                Transition "checkboxdone" [] ];
            Text "Update settings for YouTube" ];
        Element "li" (Some "Post a tweet") [Styles "itemError"]
          [ Element "span" None [Styles "check"; Styles "failed"]
              [ Transition "checkboxdone" [];
                Element "i" None [Css "fa fa-times"] [] ];
            Text "Post a tweet" ] ].
Proof. vm_compute. reflexivity. Qed.

(** The publish stage of the go-live window, at 42 percent. *)
Lemma renderYoutubePercentage_shown_witness :
  normalize (renderYoutubePercentage Examples.goLiveWindow)
  = [Element "span" None [Styles "pending"] [Text " 42%"]].
Proof.
  apply (proj2 (proj2 (proj2 (renderYoutubePercentage_shown Examples.goLiveWindow))));
    [discriminate|reflexivity].
Defined.

Example publishYTItem_goLiveWindow :
  normalize (publishYTItem Examples.english Examples.goLiveWindow)
  = [ Element "li" (Some "Publish Youtube broadcast") []
        [ Element "span" None [Styles "check"; Styles "pending"]
            [ Element "i" None [Css "fa fa-spinner fa-pulse"] [];
              Transition "checkboxdone" [] ];
          Text "Publish Youtube broadcast";
          Element "span" None [Styles "pending"] [Text " 42%"] ] ].
Proof. vm_compute. reflexivity. Qed.

(** Progress values whose hundredfold is not a whole number show all
    their digits. *)
Example percentage_of_057 :
  JsNumber.toString (0x1.23d70a3d70a3dp-1 * 100) = "56.99999999999999".
Proof. vm_compute. reflexivity. Qed.


End GoLiveChecklistSpec.
